(** * MediDerma-AI backend: ambiguity decision and disease-information enrichment

    A shallow embedding of
      - [app/services/model_service.py]   ([ModelService.predict]),
      - [app/services/disease_info_service.py] ([DiseaseInfoService.get_disease_info]),
      - [app/routers/scan.py]             ([analyze_scan], [analyze_scan_base64]),
    followed by the properties the specification states about them.

    Conventions of the embedding.
      - Python floats are modelled by exact rationals ([Q]); the literals
        [0.70] and [0.20] are the rationals 70/100 and 20/100.
      - A Python [str] is a Rocq [string]; one character stands for one code
        point (texts are taken in the Latin-1 range).
      - A Python [dict] whose iteration order matters ([all_predictions]) is an
        association list in insertion order; the other dicts are [gmap]s.
      - Exceptions are values of [exn]; only subclasses of [Exception] are
        modelled.  Effects (the remote generator and its request trace, the
        opening of an image) are threaded through the monad [M].
      - Logging calls have no influence on results and are left out. *)

From Stdlib Require Import QArith String Ascii List Bool Lia Lqa Sorted Permutation.
From Stdlib Require Import DecimalString.
From stdpp Require Import gmap strings list fin_maps.

#[local] Set Warnings "-register-all".
#[local] Open Scope string_scope.

(** ** Python runtime values *)

Module Py.

(** Exceptions raised by the code or by the libraries it calls.  [Exception
    cls msg] is any other subclass of [Exception], with the text [str(e)]. *)
Inductive exn :=
| HTTPException (status_code : nat) (detail : string)
| JSONDecodeError (msg : string)
| Exception (cls msg : string).

(** [str(e)] as used in the f-strings of the handlers. *)
Definition exn_str (e : exn) : string :=
  match e with
  | HTTPException _ detail => detail
  | JSONDecodeError msg => msg
  | Exception _ msg => msg
  end.

(** What [json.loads] can return: [None], [bool], number, [str], [list], [dict]. *)
Inductive json :=
| JNull
| JBool (b : bool)
| JNum (q : Q)
| JStr (s : string)
| JList (l : list json)
| JDict (m : gmap string json).

(** *** [str] methods *)

(** [str.isspace] on one character: TAB..CR, FS..US, space, NEL, NBSP. *)
Definition isspace (c : ascii) : bool :=
  let n := nat_of_ascii c in
  (Nat.leb 9 n && Nat.leb n 13) || (Nat.leb 28 n && Nat.leb n 32)
  || Nat.eqb n 133 || Nat.eqb n 160.

Fixpoint lstrip (s : string) : string :=
  match s with
  | EmptyString => EmptyString
  | String c s' => if isspace c then lstrip s' else s
  end.

Fixpoint rstrip (s : string) : string :=
  match s with
  | EmptyString => EmptyString
  | String c s' =>
      match rstrip s' with
      | EmptyString => if isspace c then EmptyString else String c EmptyString
      | r => String c r
      end
  end.

(** [s.strip()] *)
Definition strip (s : string) : string := rstrip (lstrip s).

(** [s[n:]] *)
Fixpoint slice_from (n : nat) (s : string) : string :=
  match n, s with
  | O, _ => s
  | S n', String _ s' => slice_from n' s'
  | S _, EmptyString => EmptyString
  end.

(** [s[:n]] *)
Fixpoint slice_to (n : nat) (s : string) : string :=
  match n, s with
  | S n', String c s' => String c (slice_to n' s')
  | _, _ => EmptyString
  end.

(** [s[:-n]] *)
Definition slice_to_neg (n : nat) (s : string) : string :=
  slice_to (String.length s - n) s.

(** [s.startswith(p)] *)
Definition startswith (p s : string) : bool := String.prefix p s.

(** [s.endswith(p)] *)
Definition endswith (p s : string) : bool :=
  Nat.leb (String.length p) (String.length s)
  && String.eqb (slice_from (String.length s - String.length p) s) p.

(** *** The regular expression of [get_disease_info]

    [re.search(pattern, response_text, re.DOTALL)] with the pattern of line 98
    of [disease_info_service.py]: an opening brace, then any number of
    non-brace characters and of brace pairs enclosing non-brace characters,
    then a closing brace.  The search returns the leftmost match.  Every run
    of non-brace characters of the pattern is followed by a brace, so from a
    given start there is at most one match, found by one left-to-right scan
    that remembers whether an inner pair is open. *)

Definition lbrace : ascii := "{"%char.
Definition rbrace : ascii := "}"%char.

(** [scan_object inner s]: [s] is the text after the opening brace ([inner]
    tells whether an inner pair is open); returns the matched text up to and
    including the closing brace. *)
Fixpoint scan_object (inner : bool) (s : string) : option string :=
  match s with
  | EmptyString => None
  | String c s' =>
      if Ascii.eqb c lbrace then
        if inner then None
        else option_map (String c) (scan_object true s')
      else if Ascii.eqb c rbrace then
        if inner then option_map (String c) (scan_object false s')
        else Some (String c EmptyString)
      else option_map (String c) (scan_object inner s')
  end.

(** [json_match.group(0)], or [None] when the search fails. *)
Fixpoint re_search_object (s : string) : option string :=
  match s with
  | EmptyString => None
  | String c s' =>
      if Ascii.eqb c lbrace then
        match scan_object false s' with
        | Some body => Some (String c body)
        | None => re_search_object s'
        end
      else re_search_object s'
  end.

(** [str(n)] for a non-negative integer: its decimal digits. *)
Definition str_of_nat (n : nat) : string :=
  NilZero.string_of_uint (Nat.to_uint n).

(** *** Comparison of floats and [sorted(..., reverse=True)] *)

(** [x < y] *)
Definition Qltb (x y : Q) : bool := negb (Qle_bool y x).

(** One step of a stable descending sort: [x] stood before every entry of
    [l] in the input, so it stays in front of the entries with an equal key. *)
Fixpoint insert_desc {A} (x : A * Q) (l : list (A * Q)) : list (A * Q) :=
  match l with
  | [] => [x]
  | y :: l' =>
      if Qle_bool (snd y) (snd x) then x :: l
      else y :: insert_desc x l'
  end.

(** [sorted(d.items(), key=lambda x: x[1], reverse=True)]: descending by
    value, entries with equal values in their original order. *)
Fixpoint sorted_desc {A} (l : list (A * Q)) : list (A * Q) :=
  match l with
  | [] => []
  | x :: l' => insert_desc x (sorted_desc l')
  end.

(** [int(np.argmax(a))]: the index of the first occurrence of the maximum;
    [None] stands for the [ValueError] on an empty array. *)
Fixpoint argmax (a : list Q) : option nat :=
  match a with
  | [] => None
  | x :: a' =>
      match argmax a' with
      | None => Some 0
      | Some j => if Qle_bool (nth j a' 0%Q) x then Some 0 else Some (S j)
      end
  end.

End Py.

Export Py.

(** ** The outside world and the effect monad *)

(** Everything the three modules call but do not define.  [world] is the
    state of the remote services; a call may change it, so the same prompt
    can be answered differently the next time. *)
Class Runtime := {
  world : Type;
  (** [self.model.generate_content(prompt, generation_config=...)] followed
      by [response.text]: the generated text, or the exception raised by the
      call or by the accessor (timeout, transport error, blocked or empty
      response). *)
  generate_content : string -> world -> (exn + string) * world;
  (** [json.loads] *)
  json_loads : string -> exn + json;
  (** PIL images.  [Image.open(io.BytesIO(b))] creates a fresh buffer object
      on every call, and the exception it raises names that object, so its
      outcome depends on the world as well as on the bytes.  [image.mode] and
      [image.convert] are functions of the image. *)
  image : Type;
  Image_open : string -> world -> (exn + image) * world;
  image_mode : image -> string;
  image_convert : image -> string -> exn + image;
  (** [base64.b64decode] *)
  b64decode : string -> exn + string;
  (** preprocessing, the ViT forward pass and
      [softmax(logits, dim=-1).cpu().numpy()[0]] *)
  softmax_logits : image -> exn + list Q;
}.

Section Effects.
Context `{Runtime}.

(** The state a request handler runs in: the outside world and the prompts
    sent to the generator so far, oldest first. *)
Record io_state := IOState { ext : world; prompts : list string }.

(** A computation either returns or raises, and transforms the state. *)
Definition M (A : Type) : Type := io_state -> (exn + A) * io_state.

Definition ret {A} (a : A) : M A := fun s => (inr a, s).

Definition raise {A} (e : exn) : M A := fun s => (inl e, s).

Definition bind {A B} (m : M A) (k : A -> M B) : M B :=
  fun s =>
    match m s with
    | (inr a, s') => k a s'
    | (inl e, s') => (inl e, s')
    end.

(** [try: body  except Exception as e: handler(e)] *)
Definition try_except {A} (body : M A) (handler : exn -> M A) : M A :=
  fun s =>
    match body s with
    | (inr a, s') => (inr a, s')
    | (inl e, s') => handler e s'
    end.

(** A pure library call that may raise. *)
Definition lift {A} (r : exn + A) : M A :=
  match r with
  | inr a => ret a
  | inl e => raise e
  end.

(** A request to the generator; the prompt is recorded. *)
Definition call_generate_content (prompt : string) : M string :=
  fun s =>
    let (r, w) := generate_content prompt (ext s) in
    (r, {| ext := w; prompts := prompts s ++ [prompt] |}).

(** [Image.open(io.BytesIO(image_bytes))] *)
Definition call_Image_open (image_bytes : string) : M image :=
  fun s =>
    let (r, w) := Image_open image_bytes (ext s) in
    (r, {| ext := w; prompts := prompts s |}).

End Effects.

Notation "'let*' x := m 'in' k" := (bind m (fun x => k))
  (at level 10, x name, m at level 100, k at level 200).

(** ** [app/services/disease_info_service.py] *)

Module DiseaseInfoService.
Section DiseaseInfoService.
Context `{Runtime}.

(** The double-quote character, and a text between double quotes. *)
Definition dq : string := String "034"%char EmptyString.
Definition quoted (s : string) : string := dq +:+ s +:+ dq.
Definition newline : string := String "010"%char EmptyString.

(** [disease_full_names] *)
Definition disease_full_names : gmap string string :=
  list_to_map
    [ ("BCC", "Basal Cell Carcinoma");
      ("SCC", "Squamous Cell Carcinoma");
      ("Melanoma", "Melanoma");
      ("Acne", "Acne");
      ("Eczema", "Eczema");
      ("Psoriasis", "Psoriasis") ].

(** [disease_full_names.get(disease_name, disease_name)] *)
Definition full_name_of (disease_name : string) : string :=
  default disease_name (disease_full_names !! disease_name).

(** The f-string [prompt]. *)
Definition prompt_for (full_name : string) : string :=
  String.concat newline
    [ "You are a medical information assistant. Provide detailed information about "
        +:+ full_name +:+ " (a skin disease) in valid JSON format.";
      EmptyString;
      "Return ONLY a JSON object with this exact structure (no markdown, no code blocks, no explanations):";
      "{";
      "    " +:+ quoted "name" +:+ ": " +:+ quoted full_name +:+ ",";
      "    " +:+ quoted "description" +:+ ": "
        +:+ quoted ("A clear, concise description of what " +:+ full_name
                    +:+ " is, its characteristics, and how it typically appears on the skin.")
        +:+ ",";
      "    " +:+ quoted "symptoms" +:+ ": [" +:+ quoted "symptom 1" +:+ ", "
        +:+ quoted "symptom 2" +:+ ", " +:+ quoted "symptom 3" +:+ ", "
        +:+ quoted "symptom 4" +:+ "],";
      "    " +:+ quoted "cure" +:+ ": "
        +:+ quoted ("Detailed treatment options, medications, and management strategies for "
                    +:+ full_name
                    +:+ ". Include both medical treatments and home care options.")
        +:+ ",";
      "    " +:+ quoted "precautions" +:+ ": [" +:+ quoted "precaution 1" +:+ ", "
        +:+ quoted "precaution 2" +:+ ", " +:+ quoted "precaution 3" +:+ ", "
        +:+ quoted "precaution 4" +:+ "],";
      "    " +:+ quoted "severity" +:+ ": " +:+ quoted "mild or moderate or severe" +:+ ",";
      "    " +:+ quoted "when_to_see_doctor" +:+ ": "
        +:+ quoted ("Specific guidance on when someone should seek professional medical attention for "
                    +:+ full_name
                    +:+ ", including warning signs and urgency indicators.");
      "}";
      EmptyString;
      "Requirements:";
      "- Return ONLY valid JSON, no other text";
      "- Description should be 2-3 sentences";
      "- Include 4-6 common symptoms";
      "- Include 4-6 practical precautions";
      "- Cure should be comprehensive (3-4 sentences)";
      "- When_to_see_doctor should be specific and actionable (2-3 sentences)";
      "- All information must be medically accurate" ].

(** Lines 81-91: [strip], removal of the Markdown fence, [strip]. *)
Definition remove_markdown (text : string) : string :=
  let response_text := strip text in
  let response_text :=
    if startswith "```json" response_text then slice_from 7 response_text
    else if startswith "```" response_text then slice_from 3 response_text
    else response_text in
  let response_text :=
    if endswith "```" response_text then slice_to_neg 3 response_text
    else response_text in
  strip response_text.

(** Lines 98-100: keep the JSON object when the search finds one. *)
Definition extract_json (response_text : string) : string :=
  match re_search_object response_text with
  | Some group0 => group0
  | None => response_text
  end.

(** The text handed to [json.loads]. *)
Definition cleaned (text : string) : string :=
  extract_json (remove_markdown text).

(** A dict literal with the seven fields of a disease record. *)
Definition record (name description symptoms cure precautions severity
                   when_to_see_doctor : json) : gmap string json :=
  list_to_map
    [ ("name", name);
      ("description", description);
      ("symptoms", symptoms);
      ("cure", cure);
      ("precautions", precautions);
      ("severity", severity);
      ("when_to_see_doctor", when_to_see_doctor) ].

(** Lines 109-117: the dict built when [json.loads] raises [JSONDecodeError]. *)
Definition parse_fallback (full_name response_text : string) : gmap string json :=
  record
    (JStr full_name)
    (JStr (if Nat.ltb 300 (String.length response_text)
           then slice_to 300 response_text else response_text))
    (JList [])
    (JStr "Please consult a dermatologist for proper treatment.")
    (JList [])
    (JStr "moderate")
    (JStr "Consult a healthcare professional for proper diagnosis and treatment.").

(** Lines 136-144: the dict returned by the outer handler. *)
Definition fallback_info (disease_name : string) : gmap string json :=
  record
    (JStr disease_name)
    (JStr "Information temporarily unavailable. Please consult a dermatologist.")
    (JList [])
    (JStr "Please consult a healthcare professional for proper diagnosis and treatment.")
    (JList [JStr "Avoid excessive sun exposure"; JStr "Use sunscreen";
            JStr "Keep skin moisturized"])
    (JStr "unknown")
    (JStr "Consult a dermatologist for proper diagnosis and treatment.").

(** [disease_info.get(key, dflt)]: a method of [dict] only. *)
Definition get (disease_info : json) (key : string) (dflt : json) : M json :=
  match disease_info with
  | JDict m => ret (default dflt (m !! key))
  | _ => raise (Exception "AttributeError" "object has no attribute 'get'")
  end.

(** Lines 102-117: [json.loads] and its [except json.JSONDecodeError]. *)
Definition loads_or_fallback (full_name response_text : string) : M json :=
  match json_loads response_text with
  | inr disease_info => ret disease_info
  | inl (JSONDecodeError _) => ret (JDict (parse_fallback full_name response_text))
  | inl e => raise e
  end.

(** Lines 123-131: the dict literal that is returned. *)
Definition required_fields (full_name : string) (disease_info : json)
  : M (gmap string json) :=
  let* name := get disease_info "name" (JStr full_name) in
  let* description := get disease_info "description" (JStr EmptyString) in
  let* symptoms := get disease_info "symptoms" (JList []) in
  let* cure := get disease_info "cure" (JStr EmptyString) in
  let* precautions := get disease_info "precautions" (JList []) in
  let* severity := get disease_info "severity" (JStr "moderate") in
  let* when_to_see_doctor :=
    get disease_info "when_to_see_doctor"
        (JStr "Consult a healthcare professional.") in
  ret (record name description symptoms cure precautions severity
              when_to_see_doctor).

(** [DiseaseInfoService.get_disease_info] *)
Definition get_disease_info (disease_name : string) : M (gmap string json) :=
  try_except
    (let full_name := full_name_of disease_name in
     let prompt := prompt_for full_name in
     let* disease_info :=
       try_except
         (let* text := call_generate_content prompt in
          loads_or_fallback full_name (cleaned text))
         (fun api_error => raise api_error) in
     required_fields full_name disease_info)
    (fun e => ret (fallback_info disease_name)).

End DiseaseInfoService.
End DiseaseInfoService.

(** ** [app/services/model_service.py] *)

Module ModelService.

(** [DISEASE_CATEGORIES] *)
Definition DISEASE_CATEGORIES : gmap nat string :=
  list_to_map
    [ (0, "Acne"); (1, "BCC"); (2, "Eczema");
      (3, "Melanoma"); (4, "Psoriasis"); (5, "SCC") ].

(** The dict returned by [predict].  [all_predictions] keeps the insertion
    order of the Python dict, which [items()] and [sorted] observe. *)
Record prediction_result := PredictionResult {
  disease : string;
  confidence : Q;
  predicted_class_id : nat;
  all_predictions : list (string * Q);
}.

(** [d[key] = value] on an insertion-ordered dict. *)
Fixpoint setitem (key : string) (value : Q) (d : list (string * Q))
  : list (string * Q) :=
  match d with
  | [] => [(key, value)]
  | (k, v) :: d' =>
      if String.eqb k key then (k, value) :: d'
      else (k, v) :: setitem key value d'
  end.

(** Lines 106-109: the dict comprehension over [range(len(DISEASE_CATEGORIES))]. *)
Fixpoint class_probabilities (probabilities : list Q) (indices : list nat)
    (acc : list (string * Q)) : exn + list (string * Q) :=
  match indices with
  | [] => inr acc
  | i :: indices' =>
      match DISEASE_CATEGORIES !! i, probabilities !! i with
      | None, _ => inl (Exception "KeyError" (str_of_nat i))
      | Some _, None =>
          inl (Exception "IndexError"
                 ("index " +:+ str_of_nat i
                  +:+ " is out of bounds for axis 0 with size "
                  +:+ str_of_nat (length probabilities)))
      | Some label, Some p =>
          class_probabilities probabilities indices' (setitem label p acc)
      end
  end.

(** Lines 100-116 of [predict]: from the softmax output to the result dict. *)
Definition prediction_of (probabilities : list Q) : exn + prediction_result :=
  match argmax probabilities with
  | None =>
      inl (Exception "ValueError"
                     "attempt to get argmax of an empty sequence")
  | Some predicted_class_id =>
      let confidence_score := nth predicted_class_id probabilities 0%Q in
      let disease_name :=
        default "Unknown" (DISEASE_CATEGORIES !! predicted_class_id) in
      match class_probabilities probabilities
              (seq 0 (size DISEASE_CATEGORIES)) [] with
      | inl e => inl e
      | inr all_predictions =>
          inr {| disease := disease_name;
                 confidence := confidence_score;
                 predicted_class_id := predicted_class_id;
                 all_predictions := all_predictions |}
      end
  end.

(** The attributes of a [ModelService] that [predict] reads: [is_loaded],
    and whether [model] and [processor] are set. *)
Record t := { is_loaded : bool; model : bool; processor : bool }.

Section Predict.
Context `{Runtime}.

(** [ModelService.predict] *)
Definition predict (self : t) (img : image) : M prediction_result :=
  if negb (is_loaded self) || negb (model self) then
    raise (Exception "RuntimeError" "Model not loaded. Call load_model() first.")
  else
    try_except
      (let* probabilities :=
         lift (if processor self then softmax_logits img
               else inl (Exception "RuntimeError" "Model processor not loaded")) in
       lift (prediction_of probabilities))
      (fun e => raise e).

End Predict.
End ModelService.

(** ** [app/routers/scan.py] *)

Module Scan.
Import ModelService DiseaseInfoService.

(** One element of [alternate_diseases]. *)
Module Alternate.
Record t := Make {
  name : string;
  probability : Q;
  disease_info : gmap string json;
}.
End Alternate.

(** The dict returned by both endpoints. *)
Module Response.
Record t := Make {
  success : bool;
  disease : string;
  confidence : Q;
  is_low_confidence : bool;
  confidence_warning : option string;
  disease_info : gmap string json;
  all_predictions : list (string * Q);
  alternate_diseases : list Alternate.t;
  model_version : string;
}.
End Response.

(** [UploadFile]: the attributes and the content [analyze_scan] reads. *)
Record UploadFile := {
  content_type : option string;
  filename : option string;
  content : string;
}.

Definition CONFIDENCE_THRESHOLD : Q := 0.70.

(** [sorted(all_predictions.items(), key=lambda x: x[1], reverse=True)] *)
Definition sorted_predictions (all_predictions : list (string * Q))
  : list (string * Q) :=
  sorted_desc all_predictions.

(** [sorted_predictions[0][1] if sorted_predictions else 0] *)
Definition top_prediction (sorted_predictions : list (string * Q)) : Q :=
  match sorted_predictions with
  | (_, p) :: _ => p
  | [] => 0
  end.

(** [sorted_predictions[1][1] if len(sorted_predictions) > 1 else 0] *)
Definition second_prediction (sorted_predictions : list (string * Q)) : Q :=
  match sorted_predictions with
  | _ :: (_, p) :: _ => p
  | _ => 0
  end.

(** The dict stored for a candidate whose fetch raised (lines 101-109). *)
Definition unavailable_info (disease_candidate : string) : gmap string json :=
  record
    (JStr disease_candidate)
    (JStr "Information temporarily unavailable. Please consult a dermatologist.")
    (JList [])
    (JStr "Consult a healthcare professional for accurate treatment.")
    (JList [])
    (JStr "unknown")
    (JStr "Consult a dermatologist for proper diagnosis.").

(** [generic_disease_info] *)
Definition generic_disease_info : gmap string json :=
  record
    (JStr "Multiple Possibilities")
    (JStr "The analysis indicates multiple possible conditions. The image quality or clarity may be affecting the accuracy of the diagnosis.")
    (JList [])
    (JStr "Please consult a dermatologist for proper diagnosis. Upload a clearer, well-lit image for better analysis results.")
    (JList [JStr "Monitor the affected area for any changes";
            JStr "Avoid scratching or irritating the area";
            JStr "Keep the area clean and dry";
            JStr "Consult a healthcare professional for proper diagnosis"])
    (JStr "unknown")
    (JStr "It is recommended to consult a dermatologist, especially if the condition persists, worsens, or if you have concerns about skin cancer (BCC, SCC, or Melanoma).").

(** The text assigned to [confidence_warning] in the ambiguous branch. *)
Definition warning_text : string :=
  "The image quality or clarity may be affecting the analysis. "
  +:+ "Based on the model predictions, this could be one of several conditions. "
  +:+ "Please upload a clearer, well-lit image of the affected area for more accurate results.".

Section Endpoints.
Context `{Runtime}.

(** A [for] loop that updates one variable. *)
Fixpoint for_each {A B} (body : B -> A -> M B) (l : list A) (acc : B) : M B :=
  match l with
  | [] => ret acc
  | x :: l' => let* acc' := body acc x in for_each body l' acc'
  end.

(** The body of the first loop over [top_candidates] (lines 93-109): the
    primary's record is stored as it is, every other candidate is fetched. *)
Definition candidate_info_step (disease_name : string)
    (disease_info : gmap string json)
    (candidate_infos : gmap string (gmap string json))
    (candidate : string * Q) : M (gmap string (gmap string json)) :=
  let disease_candidate := fst candidate in
  if String.eqb disease_candidate disease_name then
    ret (<[disease_candidate := disease_info]> candidate_infos)
  else
    try_except
      (let* info := get_disease_info disease_candidate in
       ret (<[disease_candidate := info]> candidate_infos))
      (fun info_error =>
         ret (<[disease_candidate := unavailable_info disease_candidate]>
                candidate_infos)).

(** The second loop (lines 111-118). *)
Definition alternates_of (top_candidates : list (string * Q))
    (candidate_infos : gmap string (gmap string json)) : list Alternate.t :=
  map (fun candidate =>
         {| Alternate.name := fst candidate;
            Alternate.probability := snd candidate;
            Alternate.disease_info :=
              default ∅ (candidate_infos !! fst candidate) |})
      top_candidates.

(** Lines 66-156 of [analyze_scan]: from the classifier's result to the
    response. *)
Definition analyze_scan_response (prediction_result : prediction_result)
  : M Response.t :=
  let disease_name := ModelService.disease prediction_result in
  let confidence := ModelService.confidence prediction_result in
  let* disease_info := get_disease_info disease_name in
  let is_low_confidence := Qltb confidence CONFIDENCE_THRESHOLD in
  let all_predictions := ModelService.all_predictions prediction_result in
  let sorted_predictions := sorted_predictions all_predictions in
  let top_prediction := top_prediction sorted_predictions in
  let second_prediction := second_prediction sorted_predictions in
  let is_low_confidence :=
    Qltb confidence CONFIDENCE_THRESHOLD
    || Qltb (top_prediction - second_prediction) 0.20 in
  let respond confidence_warning disease_info alternate_diseases :=
    ret {| Response.success := true;
           Response.disease := disease_name;
           Response.confidence := confidence;
           Response.is_low_confidence := is_low_confidence;
           Response.confidence_warning := confidence_warning;
           Response.disease_info := disease_info;
           Response.all_predictions :=
             ModelService.all_predictions prediction_result;
           Response.alternate_diseases := alternate_diseases;
           Response.model_version := "1.0.0" |} in
  if is_low_confidence && negb (Nat.eqb (length sorted_predictions) 0) then
    let top_candidates := firstn 3 sorted_predictions in
    let* candidate_infos :=
      for_each (candidate_info_step disease_name disease_info)
               top_candidates ∅ in
    let alternate_diseases := alternates_of top_candidates candidate_infos in
    respond (Some warning_text) generic_disease_info alternate_diseases
  else
    respond None disease_info [].

(** Lines 200-282 of [analyze_scan_base64]. *)
Definition analyze_scan_base64_response (prediction_result : prediction_result)
  : M Response.t :=
  let disease_name := ModelService.disease prediction_result in
  let* disease_info := get_disease_info disease_name in
  let confidence := ModelService.confidence prediction_result in
  let all_predictions := ModelService.all_predictions prediction_result in
  let sorted_predictions := sorted_predictions all_predictions in
  let top_prediction := top_prediction sorted_predictions in
  let second_prediction := second_prediction sorted_predictions in
  let is_low_confidence :=
    Qltb confidence CONFIDENCE_THRESHOLD
    || Qltb (top_prediction - second_prediction) 0.20 in
  let respond confidence_warning disease_info alternate_diseases :=
    ret {| Response.success := true;
           Response.disease := disease_name;
           Response.confidence := confidence;
           Response.is_low_confidence := is_low_confidence;
           Response.confidence_warning := confidence_warning;
           Response.disease_info := disease_info;
           Response.all_predictions := all_predictions;
           Response.alternate_diseases := alternate_diseases;
           Response.model_version := "1.0.0" |} in
  if is_low_confidence && negb (Nat.eqb (length sorted_predictions) 0) then
    let top_candidates := firstn 3 sorted_predictions in
    let* candidate_infos :=
      for_each (candidate_info_step disease_name disease_info)
               top_candidates ∅ in
    let alternate_diseases := alternates_of top_candidates candidate_infos in
    respond (Some warning_text) generic_disease_info alternate_diseases
  else
    respond None disease_info [].

(** [except HTTPException: raise] and
    [except Exception as e: raise HTTPException(500, "Error analyzing image: ...")] *)
Definition http_errors {A} (body : M A) : M A :=
  try_except body
    (fun e =>
       match e with
       | HTTPException _ _ => raise e
       | _ => raise (HTTPException 500 ("Error analyzing image: " +:+ exn_str e))
       end).

(** [Image.open(io.BytesIO(image_bytes))] and the conversion to RGB. *)
Definition open_rgb (image_bytes : string) : M image :=
  let* img := call_Image_open image_bytes in
  if negb (String.eqb (image_mode img) "RGB") then
    lift (image_convert img "RGB")
  else ret img.

(** [analyze_scan]; [predict] is the method of the injected [model_service]. *)
Definition analyze_scan (file : UploadFile)
    (predict : image -> M prediction_result) : M Response.t :=
  http_errors
    (let is_image :=
       match content_type file with
       | Some ct => negb (String.eqb ct EmptyString) && startswith "image/" ct
       | None => false
       end in
     if negb is_image then
       raise (HTTPException 400 "File must be an image")
     else
       let image_bytes := content file in
       let* img := open_rgb image_bytes in
       let* prediction_result := predict img in
       analyze_scan_response prediction_result).

(** [s.split(",")[1]] for a text that contains a comma. *)
Fixpoint until_comma (s : string) : string :=
  match s with
  | EmptyString => EmptyString
  | String c s' =>
      if Ascii.eqb c ","%char then EmptyString else String c (until_comma s')
  end.

Fixpoint after_comma (s : string) : option string :=
  match s with
  | EmptyString => None
  | String c s' => if Ascii.eqb c ","%char then Some s' else after_comma s'
  end.

(** Lines 186-188: [image_base64.split(",")[1]] when [image_base64] contains
    a comma, else [image_base64]. *)
Definition without_data_url_prefix (image_base64 : string) : string :=
  match after_comma image_base64 with
  | Some rest => until_comma rest
  | None => image_base64
  end.

(** [analyze_scan_base64]; the request body is taken with text values. *)
Definition analyze_scan_base64 (request : gmap string string)
    (predict : image -> M prediction_result) : M Response.t :=
  http_errors
    (let image_base64 := default EmptyString (request !! "image_base64") in
     if String.eqb image_base64 EmptyString then
       raise (HTTPException 400 "image_base64 is required")
     else
       let image_base64 := without_data_url_prefix image_base64 in
       let* image_bytes := lift (b64decode image_base64) in
       let* img := open_rgb image_bytes in
       let* prediction_result := predict img in
       analyze_scan_base64_response prediction_result).

End Endpoints.
End Scan.

(** ** The canonical rule of the specification *)

(** Section 4.1 in the specification's words: sort the entries by
    probability, descending; [top] is the first entry, [second] the next one
    or 0; the result is ambiguous when [top] is below the confidence
    threshold or the gap to [second] is below the margin threshold.  An empty
    distribution is not ambiguous. *)
Definition spec_is_ambiguous (confidence_threshold margin_threshold : Q)
    (distribution : list (string * Q)) : bool :=
  match sorted_desc distribution with
  | [] => false
  | (_, top) :: entries =>
      let second := match entries with (_, p) :: _ => p | [] => 0%Q end in
      Qltb top confidence_threshold || Qltb (top - second) margin_threshold
  end.

(** The classifier's result names the top-ranked entry of its distribution:
    [disease] and [confidence] are the label and the probability of the first
    entry in sorted order. *)
Definition top_is_primary (pr : ModelService.prediction_result) : Prop :=
  hd_error (Scan.sorted_predictions (ModelService.all_predictions pr))
  = Some (ModelService.disease pr, ModelService.confidence pr).

(** The seven keys of a disease record. *)
Definition record_keys : gset string :=
  list_to_set
    [ "name"; "description"; "symptoms"; "cure"; "precautions"; "severity";
      "when_to_see_doctor" ].

(** ** Observations on one call of [get_disease_info] *)

Section Observations.
Context `{Runtime}.

(** The prompt [get_disease_info] sends for a disease name. *)
Definition request_for (disease_name : string) : string :=
  DiseaseInfoService.prompt_for (DiseaseInfoService.full_name_of disease_name).

(** What the generator answers to that prompt in the state [s]. *)
Definition outcome_of (disease_name : string) (s : io_state)
  : (exn + string) * world :=
  generate_content (request_for disease_name) (ext s).

(** The state after that one request. *)
Definition after_request (disease_name : string) (s : io_state) : io_state :=
  {| ext := snd (outcome_of disease_name s);
     prompts := prompts s ++ [request_for disease_name] |}.

End Observations.

(** ** Vocabulary of the statements *)

(** [b] does not come before [a] in descending order of probability. *)
Definition desc {A} (a b : A * Q) : Prop := (snd b <= snd a)%Q.

(** The entries of the distribution as [sorted_predictions] ranks them. *)
Definition ranked (pr : ModelService.prediction_result) : list (string * Q) :=
  Scan.sorted_predictions (ModelService.all_predictions pr).

(** The value both endpoints assign to [is_low_confidence] (lines 87 and 216). *)
Definition low_confidence (pr : ModelService.prediction_result) : bool :=
  Qltb (ModelService.confidence pr) Scan.CONFIDENCE_THRESHOLD
  || Qltb (Scan.top_prediction (ranked pr) - Scan.second_prediction (ranked pr))
          0.20.

(** The guard [is_low_confidence and sorted_predictions] (lines 90 and 219). *)
Definition ambiguous_branch (pr : ModelService.prediction_result) : bool :=
  low_confidence pr && negb (Nat.eqb (length (ranked pr)) 0).

(** The candidates that are not the primary disease, in ranking order. *)
Definition others (disease_name : string) (l : list (string * Q)) : list string :=
  List.filter (fun c => negb (String.eqb c disease_name)) (map fst l).

(** The payload decodes to something that is not a dict. *)
Definition not_a_dict (j : json) : Prop :=
  match j with JDict _ => False | _ => True end.





(** Every record stored for a candidate has the seven keys. *)
Definition complete (infos : gmap string (gmap string json)) : Prop :=
  forall c r, infos !! c = Some r -> dom r = record_keys.

(** ** A scripted runtime, for running the model on concrete requests *)

Module Demo.

(** The generator answers from a script: the world is the list of the
    outcomes still to come, and an exhausted script times out. *)
Definition scripted (prompt : string) (w : list (exn + string))
  : (exn + string) * list (exn + string) :=
  match w with
  | [] => (inl (Exception "DeadlineExceeded" "504 Deadline Exceeded"), [])
  | outcome :: w' => (outcome, w')
  end.

(** A JSON object with one field of a disease record and one foreign field:
    [{"severity": "mild", "source": "wiki"}]. *)
Definition sample_payload : string :=
  "{" +:+ DiseaseInfoService.quoted "severity" +:+ ": "
  +:+ DiseaseInfoService.quoted "mild" +:+ ", "
  +:+ DiseaseInfoService.quoted "source" +:+ ": "
  +:+ DiseaseInfoService.quoted "wiki" +:+ "}".

(** A JSON object that binds a field of a disease record to [null]:
    [{"name": null}]. *)
Definition null_payload : string :=
  "{" +:+ DiseaseInfoService.quoted "name" +:+ ": null}".

(** A decoder for the texts the examples use: the empty object, the empty
    array, [sample_payload] and [null_payload] are decoded as [json.loads]
    decodes them; the examples feed it no other valid JSON text, and it
    rejects the rest. *)
Definition loads (s : string) : exn + json :=
  if String.eqb s "{}" then inr (JDict ∅)
  else if String.eqb s "[]" then inr (JList [])
  else if String.eqb s sample_payload then
    inr (JDict (list_to_map [("severity", JStr "mild"); ("source", JStr "wiki")]))
  else if String.eqb s null_payload then
    inr (JDict (list_to_map [("name", JNull)]))
  else inl (JSONDecodeError "Expecting value: line 1 column 1 (char 0)").

(** The 14 bytes of a binary PPM file with one red pixel: the header
    [P6 / 1 1 / 255], each line ended by a line feed, and the bytes FF 00 00. *)
Definition one_pixel : string :=
  "P6" +:+ DiseaseInfoService.newline +:+ "1 1" +:+ DiseaseInfoService.newline
  +:+ "255" +:+ DiseaseInfoService.newline
  +:+ String "255"%char (String "000"%char (String "000"%char EmptyString)).

(** An image opener for the examples: [one_pixel] opens, in mode RGB; any
    other content is refused, the buffer's address being one of those the
    message may show. *)
Definition open_image (image_bytes : string) (w : list (exn + string))
  : (exn + unit) * list (exn + string) :=
  (if String.eqb image_bytes one_pixel then inr tt
   else inl (Exception "UnidentifiedImageError"
               "cannot identify image file <_io.BytesIO object at 0x7f3a5c1d2e80>"),
   w).

(** A base64 decoder for the one text the examples use, the encoding of
    [one_pixel]; the examples feed it no other text. *)
Definition decode (s : string) : exn + string :=
  if String.eqb s "UDYKMSAxCjI1NQr/AAA=" then inr one_pixel
  else inl (Exception "binascii.Error" "Incorrect padding").

(** The runtime of the examples, for a classifier whose softmax output is
    [probabilities] on every image. *)
Definition runtime_of (probabilities : list Q) : Runtime :=
  {| world := list (exn + string);
     generate_content := scripted;
     json_loads := loads;
     image := unit;
     Image_open := open_image;
     image_mode := fun _ => "RGB";
     image_convert := fun img _ => inr img;
     b64decode := decode;
     softmax_logits := fun _ => inr probabilities |}.

Definition runtime : Runtime :=
  runtime_of [0.85; 0.05; 0.10; 0; 0; 0]%Q.

(** A classifier with no output class. *)
Definition no_class_runtime : Runtime := runtime_of [].

(** A state with the given script and no request sent yet. *)
Definition start (script : list (exn + string)) : @io_state runtime :=
  @IOState runtime script [].

(** A classifier result as [predict] builds it: Melanoma 0.55, SCC 0.40. *)
Definition close_call : ModelService.prediction_result :=
  {| ModelService.disease := "Melanoma";
     ModelService.confidence := 0.55;
     ModelService.predicted_class_id := 3;
     ModelService.all_predictions :=
       [("Acne", 0%Q); ("BCC", 0.05%Q); ("Eczema", 0%Q);
        ("Melanoma", 0.55%Q); ("Psoriasis", 0%Q); ("SCC", 0.40%Q)] |}.

(** A result with one category only. *)
Definition single_category : ModelService.prediction_result :=
  {| ModelService.disease := "Acne";
     ModelService.confidence := 0.85;
     ModelService.predicted_class_id := 0;
     ModelService.all_predictions := [("Acne", 0.85%Q)] |}.

(** An uploaded image. *)
Definition upload : Scan.UploadFile :=
  {| Scan.content_type := Some "image/x-portable-pixmap";
     Scan.filename := Some "lesion.ppm";
     Scan.content := one_pixel |}.

(** An uploaded PDF. *)
Definition pdf_upload : Scan.UploadFile :=
  {| Scan.content_type := Some "application/pdf";
     Scan.filename := Some "report.pdf";
     Scan.content := "%PDF" |}.

(** The body of a request to [/analyze-base64] with the same bytes as
    [upload], sent as a data URL. *)
Definition data_url_request : gmap string string :=
  {[ "image_base64" := "data:image/x-portable-pixmap;base64,UDYKMSAxCjI1NQr/AAA=" ]}.

(** A classifier service before and after [load_model]. *)
Definition unloaded : ModelService.t :=
  {| ModelService.is_loaded := false;
     ModelService.model := false;
     ModelService.processor := false |}.

Definition loaded : ModelService.t :=
  {| ModelService.is_loaded := true;
     ModelService.model := true;
     ModelService.processor := true |}.

End Demo.

(** * Properties *)

Import DiseaseInfoService ModelService Scan.

(** ** Order on probabilities and the ranking *)

Section Order.

Lemma Qltb_lt (x y : Q) : Qltb x y = true <-> (x < y)%Q.
Proof.
  unfold Qltb. rewrite negb_true_iff. split.
  - intros Hle. apply Qnot_le_lt. intros Hyx.
    apply Qle_bool_iff in Hyx. congruence.
  - intros Hlt. destruct (Qle_bool y x) eqn:E; [|reflexivity].
    apply Qle_bool_iff in E. exfalso. exact (Qlt_not_le _ _ Hlt E).
Qed.

Lemma Qle_bool_false (x y : Q) : Qle_bool x y = false -> (y < x)%Q.
Proof.
  intros E. apply Qnot_le_lt. intros Hle.
  apply Qle_bool_iff in Hle. congruence.
Qed.

Context {A : Type}.
Implicit Types (x : A * Q) (l : list (A * Q)).

Lemma insert_desc_length x l : length (insert_desc x l) = S (length l).
Proof.
  induction l as [|y l IH]; simpl; [reflexivity|].
  destruct (Qle_bool _ _); simpl; congruence.
Qed.

Lemma sorted_desc_length l : length (sorted_desc l) = length l.
Proof.
  induction l as [|x l IH]; simpl; [reflexivity|].
  rewrite insert_desc_length. congruence.
Qed.

Lemma insert_desc_perm x l : Permutation (insert_desc x l) (x :: l).
Proof.
  induction l as [|y l IH]; simpl; [reflexivity|].
  destruct (Qle_bool _ _); [reflexivity|].
  rewrite IH. apply perm_swap.
Qed.

Lemma sorted_desc_perm l : Permutation (sorted_desc l) l.
Proof.
  induction l as [|x l IH]; simpl; [reflexivity|].
  rewrite insert_desc_perm. now constructor.
Qed.

Lemma insert_desc_sorted x l :
  StronglySorted desc l -> StronglySorted desc (insert_desc x l).
Proof.
  induction 1 as [|y l Hs IH Hy]; simpl.
  - repeat constructor.
  - destruct (Qle_bool (snd y) (snd x)) eqn:E.
    + apply Qle_bool_iff in E.
      constructor; [now constructor|].
      constructor; [exact E|].
      eapply Forall_impl; [exact Hy|].
      intros z Hz. unfold desc in *. eapply Qle_trans; eassumption.
    + apply Qle_bool_false in E.
      constructor; [exact IH|].
      eapply Permutation_Forall; [symmetry; apply insert_desc_perm|].
      constructor; [|exact Hy].
      unfold desc. now apply Qlt_le_weak.
Qed.

Lemma sorted_desc_sorted l : StronglySorted desc (sorted_desc l).
Proof.
  induction l as [|x l IH]; simpl; [constructor|].
  now apply insert_desc_sorted.
Qed.

Lemma sorted_desc_nil l : sorted_desc l = [] <-> l = [].
Proof.
  split; [|now intros ->].
  intros E. apply (f_equal (@length _)) in E.
  rewrite sorted_desc_length in E. now destruct l.
Qed.

(** The head of the sorted list is the entry [argmax] points at. *)
Lemma hd_sorted_desc_argmax l i :
  argmax (map snd l) = Some i -> hd_error (sorted_desc l) = nth_error l i.
Proof.
  revert i. induction l as [|x l IH]; intros i; simpl; [discriminate|].
  destruct (argmax (map snd l)) as [j|] eqn:Ej.
  - specialize (IH j eq_refl).
    destruct (sorted_desc l) as [|y s] eqn:Es.
    { apply (proj1 (sorted_desc_nil l)) in Es. subst l. discriminate. }
    simpl in IH.
    assert (Hy : nth j (map snd l) 0%Q = snd y).
    { symmetry in IH. clear -IH. revert j IH.
      induction l as [|z l IHl]; intros [|j] E; simpl in *; try discriminate.
      - now inversion E.
      - now apply IHl. }
    rewrite Hy. simpl.
    destruct (Qle_bool (snd y) (snd x)); intros [= <-]; simpl; congruence.
  - destruct l; [|simpl in Ej; destruct (argmax _); [destruct (Qle_bool _ _)|]; discriminate].
    intros [= <-]. reflexivity.
Qed.

End Order.
(** *** Disease records *)

Section Records.
Variables name description symptoms cure precautions severity wtsd : json.
Let r := record name description symptoms cure precautions severity wtsd.

Ltac lookup_field :=
  subst r; unfold record; cbn [list_to_map foldr fst snd];
  repeat (rewrite lookup_insert_ne by discriminate);
  apply lookup_insert_eq.

Lemma record_name : r !! "name" = Some name.
Proof. lookup_field. Qed.
Lemma record_description : r !! "description" = Some description.
Proof. lookup_field. Qed.
Lemma record_symptoms : r !! "symptoms" = Some symptoms.
Proof. lookup_field. Qed.
Lemma record_cure : r !! "cure" = Some cure.
Proof. lookup_field. Qed.
Lemma record_precautions : r !! "precautions" = Some precautions.
Proof. lookup_field. Qed.
Lemma record_severity : r !! "severity" = Some severity.
Proof. lookup_field. Qed.
Lemma record_when_to_see_doctor : r !! "when_to_see_doctor" = Some wtsd.
Proof. lookup_field. Qed.

Lemma dom_record : dom r = record_keys.
Proof. subst r. unfold record, record_keys. now rewrite dom_list_to_map_L. Qed.

End Records.


Lemma record_keys_only (m : gmap string json) (k : string) :
  dom m = record_keys -> k ∉ record_keys -> m !! k = None.
Proof. intros Hdom Hk. apply not_elem_of_dom. now rewrite Hdom. Qed.

Section Info.
Context `{Runtime}.

Lemma required_fields_dict full m s :
  required_fields full (JDict m) s
  = (inr (record (default (JStr full) (m !! "name"))
                 (default (JStr EmptyString) (m !! "description"))
                 (default (JList []) (m !! "symptoms"))
                 (default (JStr EmptyString) (m !! "cure"))
                 (default (JList []) (m !! "precautions"))
                 (default (JStr "moderate") (m !! "severity"))
                 (default (JStr "Consult a healthcare professional.")
                          (m !! "when_to_see_doctor"))), s).
Proof. reflexivity. Qed.

Lemma required_fields_record full a b c d e f g s :
  required_fields full (JDict (record a b c d e f g)) s
  = (inr (record a b c d e f g), s).
Proof.
  rewrite required_fields_dict.
  rewrite record_name, record_description, record_symptoms, record_cure,
    record_precautions, record_severity, record_when_to_see_doctor.
  reflexivity.
Qed.

Lemma get_disease_info_transport_failure d s e w :
  outcome_of d s = (inl e, w) ->
  get_disease_info d s = (inr (fallback_info d), after_request d s).
Proof.
  unfold outcome_of, after_request, request_for, get_disease_info, try_except, bind,
    call_generate_content, outcome_of, request_for.
  intros ->. reflexivity.
Qed.

Lemma get_disease_info_decode_error d s text w msg :
  outcome_of d s = (inr text, w) ->
  json_loads (cleaned text) = inl (JSONDecodeError msg) ->
  get_disease_info d s
  = (inr (parse_fallback (full_name_of d) (cleaned text)), after_request d s).
Proof.
  unfold outcome_of, after_request, request_for, get_disease_info, try_except,
    bind, call_generate_content, outcome_of, request_for, loads_or_fallback.
  intros -> ->. cbv beta iota zeta delta [ret fst snd]. unfold parse_fallback.
  rewrite required_fields_record. reflexivity.
Qed.

Lemma get_disease_info_parsed d s text w m :
  outcome_of d s = (inr text, w) ->
  json_loads (cleaned text) = inr (JDict m) ->
  get_disease_info d s
  = (inr (record (default (JStr (full_name_of d)) (m !! "name"))
                 (default (JStr EmptyString) (m !! "description"))
                 (default (JList []) (m !! "symptoms"))
                 (default (JStr EmptyString) (m !! "cure"))
                 (default (JList []) (m !! "precautions"))
                 (default (JStr "moderate") (m !! "severity"))
                 (default (JStr "Consult a healthcare professional.")
                          (m !! "when_to_see_doctor"))),
     after_request d s).
Proof.
  unfold outcome_of, after_request, request_for, get_disease_info, try_except,
    bind, call_generate_content, outcome_of, request_for, loads_or_fallback.
  intros -> ->. cbv beta iota zeta delta [ret fst snd].
  rewrite required_fields_dict. reflexivity.
Qed.

Lemma get_disease_info_not_a_dict d s text w j :
  outcome_of d s = (inr text, w) ->
  json_loads (cleaned text) = inr j -> not_a_dict j ->
  get_disease_info d s = (inr (fallback_info d), after_request d s).
Proof.
  unfold outcome_of, after_request, request_for, get_disease_info, try_except,
    bind, call_generate_content, outcome_of, request_for, loads_or_fallback.
  intros -> -> Hj. (destruct j; try reflexivity). destruct Hj.
Qed.

Lemma get_disease_info_decoder_raises d s text w e :
  outcome_of d s = (inr text, w) ->
  json_loads (cleaned text) = inl e ->
  (forall msg, e <> JSONDecodeError msg) ->
  get_disease_info d s = (inr (fallback_info d), after_request d s).
Proof.
  unfold outcome_of, after_request, request_for, get_disease_info, try_except,
    bind, call_generate_content, outcome_of, request_for, loads_or_fallback.
  intros -> -> He. (destruct e; try reflexivity). now destruct (He msg).
Qed.

Lemma dom_fallback_info d : dom (fallback_info d) = record_keys.
Proof. unfold fallback_info. apply dom_record. Qed.

Lemma dom_parse_fallback full text : dom (parse_fallback full text) = record_keys.
Proof. unfold parse_fallback. apply dom_record. Qed.

Lemma get_disease_info_returns d s :
  exists r, get_disease_info d s = (inr r, after_request d s)
            /\ dom r = record_keys.
Proof.
  destruct (outcome_of d s) as [[e|text] w] eqn:Eo.
  { rewrite (get_disease_info_transport_failure d s e w Eo).
    eexists; split; [reflexivity|apply dom_fallback_info]. }
  destruct (json_loads (cleaned text)) as [e|j] eqn:Ej.
  - destruct e as [c t|msg|c t].
    + rewrite (get_disease_info_decoder_raises d s text w _ Eo Ej)
        by discriminate.
      eexists; split; [reflexivity|apply dom_fallback_info].
    + rewrite (get_disease_info_decode_error d s text w msg Eo Ej).
      eexists; split; [reflexivity|apply dom_parse_fallback].
    + rewrite (get_disease_info_decoder_raises d s text w _ Eo Ej)
        by discriminate.
      eexists; split; [reflexivity|apply dom_fallback_info].
  - destruct j as [| | | | |m];
      try (rewrite (get_disease_info_not_a_dict d s text w _ Eo Ej I);
           eexists; split; [reflexivity|apply dom_fallback_info]).
    rewrite (get_disease_info_parsed d s text w m Eo Ej).
    eexists; split; [reflexivity|apply dom_record].
Qed.

End Info.

(** *** The two loops over the candidates *)

Section Candidates.
Context `{Runtime}.

Lemma candidate_info_step_primary dn di infos c p s :
  String.eqb c dn = true ->
  candidate_info_step dn di infos (c, p) s = (inr (<[c := di]> infos), s).
Proof.
  intros E. unfold candidate_info_step. cbn [fst]. rewrite E. reflexivity.
Qed.

Lemma candidate_info_step_other dn di infos c p s :
  String.eqb c dn = false ->
  exists r,
    get_disease_info c s = (inr r, after_request c s)
    /\ dom r = record_keys
    /\ candidate_info_step dn di infos (c, p) s
       = (inr (<[c := r]> infos), after_request c s).
Proof.
  intros E. destruct (get_disease_info_returns c s) as (r & Hr & Hdom).
  exists r. split; [exact Hr|]. split; [exact Hdom|].
  unfold candidate_info_step. cbn [fst]. rewrite E.
  unfold try_except, bind. rewrite Hr. reflexivity.
Qed.

Lemma for_each_candidates dn di l : forall infos s,
  exists infos' s',
    for_each (candidate_info_step dn di) l infos s = (inr infos', s')
    /\ prompts s' = (prompts s ++ map request_for (others dn l))%list
    /\ (In dn (map fst l) -> infos' !! dn = Some di)
    /\ (~ In dn (map fst l) -> infos' !! dn = infos !! dn).
Proof.
  induction l as [|[c p] l IH]; intros infos s.
  - exists infos, s. cbn. rewrite app_nil_r. tauto.
  - cbn [for_each]. unfold bind at 1.
    destruct (String.eqb c dn) eqn:E.
    + rewrite (candidate_info_step_primary dn di infos c p s E).
      destruct (IH (<[c := di]> infos) s) as (infos' & s' & Hrun & Hp & Hin & Hout).
      exists infos', s'. split; [exact Hrun|].
      apply String.eqb_eq in E. subst c.
      split; [|split].
      * rewrite Hp. unfold others. cbn [map fst List.filter].
        rewrite String.eqb_refl. reflexivity.
      * intros _. destruct (in_dec string_dec dn (map fst l)) as [Hi|Hn];
          [now apply Hin|].
        rewrite (Hout Hn). apply lookup_insert_eq.
      * intros Hn. exfalso. apply Hn. now left.
    + destruct (candidate_info_step_other dn di infos c p s E)
        as (r & _ & _ & Hstep).
      rewrite Hstep.
      destruct (IH (<[c := r]> infos) (after_request c s))
        as (infos' & s' & Hrun & Hp & Hin & Hout).
      exists infos', s'. split; [exact Hrun|].
      assert (Hne : c <> dn) by now apply String.eqb_neq.
      split; [|split].
      * rewrite Hp. unfold others. cbn [map fst List.filter].
        rewrite E. cbn [negb map after_request prompts].
        now rewrite <- app_assoc.
      * intros [Hc|Hi]; [cbn in Hc; congruence|now apply Hin].
      * intros Hn. rewrite Hout by (intros Hi; apply Hn; now right).
        now apply lookup_insert_ne.
Qed.

Lemma alternates_of_length l infos : length (alternates_of l infos) = length l.
Proof. unfold alternates_of. apply length_map. Qed.

Lemma alternates_of_entries l infos :
  map (fun a => (Alternate.name a, Alternate.probability a)) (alternates_of l infos)
  = l.
Proof.
  unfold alternates_of. induction l as [|[c p] l IH]; [reflexivity|].
  cbn [map]. cbn [Alternate.name Alternate.probability fst snd]. now rewrite IH.
Qed.

End Candidates.

(** *** Running the two response builders *)

Section Responses.
Context `{Runtime}.

Lemma base64_response_same pr s :
  analyze_scan_base64_response pr s = analyze_scan_response pr s.
Proof. reflexivity. Qed.

Lemma analyze_scan_response_plain pr s :
  ambiguous_branch pr = false ->
  exists di,
    get_disease_info (ModelService.disease pr) s
    = (inr di, after_request (ModelService.disease pr) s)
    /\ dom di = record_keys
    /\ analyze_scan_response pr s
       = (inr {| Response.success := true;
                 Response.disease := ModelService.disease pr;
                 Response.confidence := ModelService.confidence pr;
                 Response.is_low_confidence := low_confidence pr;
                 Response.confidence_warning := None;
                 Response.disease_info := di;
                 Response.all_predictions := ModelService.all_predictions pr;
                 Response.alternate_diseases := [];
                 Response.model_version := "1.0.0" |},
          after_request (ModelService.disease pr) s).
Proof.
  intros Hb.
  destruct (get_disease_info_returns (ModelService.disease pr) s)
    as (di & Hdi & Hdom).
  exists di. split; [exact Hdi|]. split; [exact Hdom|].
  unfold analyze_scan_response, bind at 1. rewrite Hdi.
  unfold ambiguous_branch, low_confidence, ranked in Hb.
  cbv zeta. rewrite Hb. reflexivity.
Qed.

Lemma analyze_scan_response_ambiguous pr s :
  ambiguous_branch pr = true ->
  exists di infos s',
    get_disease_info (ModelService.disease pr) s
    = (inr di, after_request (ModelService.disease pr) s)
    /\ dom di = record_keys
    /\ for_each (candidate_info_step (ModelService.disease pr) di)
         (firstn 3 (ranked pr)) ∅ (after_request (ModelService.disease pr) s)
       = (inr infos, s')
    /\ analyze_scan_response pr s
       = (inr {| Response.success := true;
                 Response.disease := ModelService.disease pr;
                 Response.confidence := ModelService.confidence pr;
                 Response.is_low_confidence := true;
                 Response.confidence_warning := Some warning_text;
                 Response.disease_info := generic_disease_info;
                 Response.all_predictions := ModelService.all_predictions pr;
                 Response.alternate_diseases :=
                   alternates_of (firstn 3 (ranked pr)) infos;
                 Response.model_version := "1.0.0" |}, s').
Proof.
  intros Hb.
  destruct (get_disease_info_returns (ModelService.disease pr) s)
    as (di & Hdi & Hdom).
  destruct (for_each_candidates (ModelService.disease pr) di
              (firstn 3 (ranked pr)) ∅ (after_request (ModelService.disease pr) s))
    as (infos & s' & Hrun & _).
  exists di, infos, s'. split; [exact Hdi|]. split; [exact Hdom|].
  split; [exact Hrun|].
  assert (Hlow : low_confidence pr = true).
  { unfold ambiguous_branch in Hb. now apply andb_true_iff in Hb. }
  unfold analyze_scan_response, bind at 1. rewrite Hdi.
  unfold ambiguous_branch, low_confidence, ranked in Hb, Hlow.
  cbv zeta. rewrite Hb. unfold bind. unfold ranked in Hrun. rewrite Hrun.
  rewrite Hlow. reflexivity.
Qed.

End Responses.

(** *** The decision *)

Section Decision.
Context `{Runtime}.

Lemma top_is_primary_ranked pr :
  top_is_primary pr ->
  exists rest,
    ranked pr = (ModelService.disease pr, ModelService.confidence pr) :: rest.
Proof.
  unfold top_is_primary, ranked. destruct (sorted_predictions _) as [|e rest].
  - discriminate.
  - cbn. intros [= ->]. now exists rest.
Qed.

Lemma top_is_primary_confidence pr :
  top_is_primary pr -> top_prediction (ranked pr) = ModelService.confidence pr.
Proof.
  intros Hp. destruct (top_is_primary_ranked pr Hp) as (rest & ->). reflexivity.
Qed.

Lemma spec_is_ambiguous_ranked pr :
  ranked pr <> [] ->
  spec_is_ambiguous 0.70 0.20 (ModelService.all_predictions pr)
  = Qltb (top_prediction (ranked pr)) 0.70
    || Qltb (top_prediction (ranked pr) - second_prediction (ranked pr)) 0.20.
Proof.
  unfold spec_is_ambiguous, ranked, sorted_predictions.
  destruct (sorted_desc _) as [|[l1 p1] [|[l2 p2] rest]]; [congruence| |];
    reflexivity.
Qed.

(** Both branches report the same decision. *)
Lemma analyze_scan_response_decision pr s :
  exists r s',
    analyze_scan_response pr s = (inr r, s')
    /\ Response.is_low_confidence r = low_confidence pr.
Proof.
  destruct (ambiguous_branch pr) eqn:Hb.
  - destruct (analyze_scan_response_ambiguous pr s Hb)
      as (di & infos & s' & _ & _ & _ & Hrun).
    eexists _, s'. split; [exact Hrun|]. cbn.
    unfold ambiguous_branch in Hb. apply andb_true_iff in Hb. now destruct Hb.
  - destruct (analyze_scan_response_plain pr s Hb) as (di & _ & _ & Hrun).
    eexists _, _. split; [exact Hrun|]. reflexivity.
Qed.

End Decision.

(** ** The classifier's result names the top-ranked entry *)

Lemma class_probabilities_six (p0 p1 p2 p3 p4 p5 : Q) :
  class_probabilities [p0; p1; p2; p3; p4; p5] (seq 0 (size DISEASE_CATEGORIES)) []
  = inr [("Acne", p0); ("BCC", p1); ("Eczema", p2);
         ("Melanoma", p3); ("Psoriasis", p4); ("SCC", p5)].
Proof. vm_compute. reflexivity. Qed.

Lemma prediction_of_top_is_primary (probabilities : list Q) pr :
  length probabilities = 6 ->
  prediction_of probabilities = inr pr ->
  top_is_primary pr.
Proof.
  intros Hlen.
  destruct probabilities as [|p0 [|p1 [|p2 [|p3 [|p4 [|p5 [|]]]]]]];
    try discriminate Hlen. clear Hlen.
  unfold prediction_of. rewrite class_probabilities_six.
  set (l := [("Acne", p0); ("BCC", p1); ("Eczema", p2);
             ("Melanoma", p3); ("Psoriasis", p4); ("SCC", p5)]).
  change [p0; p1; p2; p3; p4; p5] with (map snd l).
  destruct (argmax (map snd l)) as [i|] eqn:Ei; [|discriminate].
  intros [= <-]. unfold top_is_primary, sorted_predictions.
  cbn [ModelService.all_predictions ModelService.disease ModelService.confidence].
  rewrite (hd_sorted_desc_argmax l i Ei).
  assert (Hi : (i < 6)%nat).
  { clear -Ei. subst l. cbn in Ei.
    repeat match type of Ei with
           | context [Qle_bool ?a ?b] => destruct (Qle_bool a b)
           end; injection Ei as <-; lia. }
  do 6 (destruct i as [|i]; [vm_compute; reflexivity|]). lia.
Qed.

Lemma argmax_none (a : list Q) : argmax a = None -> a = [].
Proof.
  destruct a as [|x a]; [reflexivity|]. cbn.
  destruct (argmax a); [destruct (Qle_bool _ _)|]; discriminate.
Qed.

Lemma class_probabilities_short (probabilities : list Q) :
  (length probabilities < 6)%nat ->
  class_probabilities probabilities (seq 0 (size DISEASE_CATEGORIES)) []
  = inl (Exception "IndexError"
           ("index " +:+ str_of_nat (length probabilities)
            +:+ " is out of bounds for axis 0 with size "
            +:+ str_of_nat (length probabilities))).
Proof.
  intros Hlen.
  destruct probabilities as [|p0 [|p1 [|p2 [|p3 [|p4 [|p5 l]]]]]];
    try (vm_compute; reflexivity).
  cbn in Hlen. lia.
Qed.

Lemma class_probabilities_enough (p0 p1 p2 p3 p4 p5 : Q) (l : list Q) :
  class_probabilities (p0 :: p1 :: p2 :: p3 :: p4 :: p5 :: l)
    (seq 0 (size DISEASE_CATEGORIES)) []
  = inr [("Acne", p0); ("BCC", p1); ("Eczema", p2);
         ("Melanoma", p3); ("Psoriasis", p4); ("SCC", p5)].
Proof. reflexivity. Qed.

(** Whatever [predict] returns lists the six categories. *)
Lemma prediction_of_entries (probabilities : list Q) (pr : prediction_result) :
  prediction_of probabilities = inr pr ->
  map fst (ModelService.all_predictions pr)
  = ["Acne"; "BCC"; "Eczema"; "Melanoma"; "Psoriasis"; "SCC"].
Proof.
  unfold prediction_of.
  destruct (Nat.lt_ge_cases (length probabilities) 6) as [Hlt|Hge].
  - rewrite (class_probabilities_short probabilities Hlt).
    destruct (argmax probabilities); discriminate.
  - destruct probabilities as [|p0 [|p1 [|p2 [|p3 [|p4 [|p5 l]]]]]];
      try (cbn in Hge; lia).
    rewrite class_probabilities_enough.
    destruct (argmax _); [|discriminate]. intros [= <-]. reflexivity.
Qed.

Lemma prediction_of_not_empty (probabilities : list Q) (pr : prediction_result) :
  prediction_of probabilities = inr pr ->
  ModelService.all_predictions pr <> [].
Proof.
  intros Hpr Hnil. apply prediction_of_entries in Hpr.
  rewrite Hnil in Hpr. discriminate Hpr.
Qed.

(** A loaded service returns or raises what the post-processing of the
    softmax output returns or raises, and leaves the state as it is. *)
Lemma predict_loaded `{Runtime} (self : ModelService.t) (img : image)
    (probabilities : list Q) (s : io_state) :
  is_loaded self = true -> model self = true -> processor self = true ->
  softmax_logits img = inr probabilities ->
  predict self img s = (prediction_of probabilities, s).
Proof.
  intros Hl Hm Hp Hsoft. unfold predict. rewrite Hl, Hm, Hp, Hsoft.
  cbn [negb orb lift]. unfold try_except, bind, ret. cbn [lift].
  destruct (prediction_of probabilities); reflexivity.
Qed.

(** ** The ambiguity decision (specification, section 4.1) *)

Section AmbiguityClaims.
Context `{Runtime}.

(** C1.  For every classifier result, [analyze_scan] returns a response whose
    [is_low_confidence] is [top < 0.70 or (top - second) < 0.20], where [top]
    and [second] are the two highest probabilities of the distribution (0 when
    missing) and the reported confidence is the probability of the top entry;
    whenever the two highest probabilities are less than 0.20 apart the
    response is ambiguous, whatever the confidence. *)
Theorem C1_ambiguity_rule (pr : prediction_result) (s : io_state) :
  exists r s',
    analyze_scan_response pr s = (inr r, s')
    /\ (top_is_primary pr ->
        Response.is_low_confidence r
        = Qltb (top_prediction (ranked pr)) 0.70
          || Qltb (top_prediction (ranked pr) - second_prediction (ranked pr))
                  0.20)
    /\ ((top_prediction (ranked pr) - second_prediction (ranked pr) < 0.20)%Q ->
        Response.is_low_confidence r = true).
Proof.
  destruct (analyze_scan_response_decision pr s) as (r & s' & Hrun & Hlow).
  exists r, s'. split; [exact Hrun|]. rewrite Hlow. unfold low_confidence.
  split.
  - intros Hp. now rewrite (top_is_primary_confidence pr Hp).
  - intros Hm. apply Qltb_lt in Hm. rewrite Hm. apply orb_true_r.
Qed.

(** C6.  For a distribution with exactly one entry, whose probability is the
    reported confidence, the second probability is 0 and the response is
    ambiguous exactly when that probability is below 0.70: the margin test
    adds nothing to the confidence test. *)
Theorem C6_single_category (pr : prediction_result) (s : io_state)
    (label : string) (p : Q) :
  ModelService.all_predictions pr = [(label, p)] ->
  ModelService.confidence pr = p ->
  exists r s',
    analyze_scan_response pr s = (inr r, s')
    /\ second_prediction (ranked pr) = 0%Q
    /\ Response.is_low_confidence r = Qltb p 0.70.
Proof.
  intros Hall Hconf.
  destruct (analyze_scan_response_decision pr s) as (r & s' & Hrun & Hlow).
  exists r, s'. split; [exact Hrun|]. rewrite Hlow.
  unfold low_confidence, ranked. rewrite Hall, Hconf.
  cbn [sorted_predictions sorted_desc insert_desc top_prediction
       second_prediction].
  split; [reflexivity|]. unfold CONFIDENCE_THRESHOLD.
  destruct (Qltb p 0.70) eqn:E1; [reflexivity|]. cbn [orb].
  destruct (Qltb (p - 0) 0.20) eqn:E2; [|reflexivity].
  apply Qltb_lt in E2.
  assert (Hlt : (p < 0.70)%Q) by lra.
  apply Qltb_lt in Hlt. congruence.
Qed.

(** C9.  For every classifier result and every state, [/analyze] and
    [/analyze-base64] build the same response; its [is_low_confidence] is
    [confidence < 0.70 or (top - second) < 0.20], and when the reported
    confidence is the probability of the top-ranked entry this is the
    canonical rule of section 4.1 applied to the distribution. *)
Theorem C9_endpoints_agree (pr : prediction_result) (s : io_state) :
  exists r s',
    analyze_scan_response pr s = (inr r, s')
    /\ analyze_scan_base64_response pr s = (inr r, s')
    /\ Response.is_low_confidence r
       = Qltb (ModelService.confidence pr) 0.70
         || Qltb (top_prediction (ranked pr) - second_prediction (ranked pr))
                 0.20
    /\ (top_is_primary pr ->
        Response.is_low_confidence r
        = spec_is_ambiguous 0.70 0.20 (ModelService.all_predictions pr)).
Proof.
  destruct (analyze_scan_response_decision pr s) as (r & s' & Hrun & Hlow).
  exists r, s'. split; [exact Hrun|].
  split; [now rewrite base64_response_same|].
  split; [exact Hlow|].
  intros Hp. rewrite Hlow. unfold low_confidence.
  rewrite spec_is_ambiguous_ranked.
  - now rewrite (top_is_primary_confidence pr Hp).
  - destruct (top_is_primary_ranked pr Hp) as (rest & ->). discriminate.
Qed.

End AmbiguityClaims.

Lemma close_call_top_is_primary : top_is_primary Demo.close_call.
Proof. vm_compute. reflexivity. Qed.

Lemma C1_ambiguity_rule_witness :
  top_is_primary Demo.close_call
  /\ (top_prediction (ranked Demo.close_call)
      - second_prediction (ranked Demo.close_call) < 0.20)%Q
  /\ exists r,
       fst (@analyze_scan_response Demo.runtime Demo.close_call (Demo.start []))
       = inr r
       /\ Response.is_low_confidence r = true.
Proof.
  destruct (@C1_ambiguity_rule Demo.runtime Demo.close_call (Demo.start []))
    as (r & s' & Hrun & _ & Hmargin).
  split; [exact close_call_top_is_primary|].
  split; [vm_compute; reflexivity|].
  exists r. split; [now rewrite Hrun|].
  apply Hmargin. vm_compute. reflexivity.
Defined.

Lemma C6_single_category_witness :
  exists r,
    fst (@analyze_scan_response Demo.runtime Demo.single_category (Demo.start []))
    = inr r
    /\ Response.is_low_confidence r = false.
Proof.
  destruct (@C6_single_category Demo.runtime Demo.single_category (Demo.start [])
              "Acne" 0.85%Q eq_refl eq_refl)
    as (r & s' & Hrun & _ & Hlow).
  exists r. split; [now rewrite Hrun|]. rewrite Hlow. reflexivity.
Defined.

Lemma C9_endpoints_agree_witness :
  exists r,
    fst (@analyze_scan_base64_response Demo.runtime Demo.close_call (Demo.start []))
    = inr r
    /\ Response.is_low_confidence r
       = spec_is_ambiguous 0.70 0.20 (ModelService.all_predictions Demo.close_call).
Proof.
  destruct (@C9_endpoints_agree Demo.runtime Demo.close_call (Demo.start []))
    as (r & s' & _ & Hrun & _ & Hspec).
  exists r. split; [now rewrite Hrun|].
  apply Hspec. exact close_call_top_is_primary.
Defined.

(** ** The knowledge fetch adapter (specification, sections 4.2 and 4.3) *)

Lemma slice_to_prefix (n : nat) (s : string) :
  String.prefix (slice_to n s) s = true.
Proof.
  revert n. induction s as [|c s IH]; intros [|n]; cbn; try reflexivity.
  rewrite IH. now destruct (ascii_dec c c).
Qed.

Lemma slice_to_length (n : nat) (s : string) :
  (String.length (slice_to n s) <= n)%nat.
Proof.
  revert n. induction s as [|c s IH]; intros [|n]; cbn; try lia.
  specialize (IH n). lia.
Qed.

Lemma prefix_refl (s : string) : String.prefix s s = true.
Proof. induction s as [|c s IH]; cbn; [reflexivity|]. now destruct (ascii_dec c c). Qed.






Section AdapterClaims.
Context `{Runtime}.


(** C10.  In every outcome the record returned by [get_disease_info] has
    exactly the seven keys: no other key of the generator's payload is bound
    in it. *)
Theorem C10_exactly_seven_keys (disease_name : string) (s : io_state) :
  exists r s',
    get_disease_info disease_name s = (inr r, s')
    /\ dom r = record_keys
    /\ forall key, key ∉ record_keys -> r !! key = None.
Proof.
  destruct (get_disease_info_returns disease_name s) as (r & Hrun & Hdom).
  exists r, (after_request disease_name s). split; [exact Hrun|].
  split; [exact Hdom|]. intros key. now apply record_keys_only.
Qed.

(** C7, amended.  When the generator answers and [json.loads] rejects the
    cleaned text (the answer after stripping white space and the Markdown
    fence and after extracting the JSON object), the record has the full
    disease name, a description that is a prefix of at most 300 characters of
    the cleaned text (the whole of it when it is that short), empty symptoms
    and precautions, severity "moderate" and the two generic sentences. *)
Theorem C7_decode_error_record (disease_name : string) (s : io_state)
    (text : string) (w : world) (msg : string) :
  outcome_of disease_name s = (inr text, w) ->
  json_loads (cleaned text) = inl (JSONDecodeError msg) ->
  exists r description,
    get_disease_info disease_name s = (inr r, after_request disease_name s)
    /\ r !! "description" = Some (JStr description)
    /\ String.prefix description (cleaned text) = true
    /\ (String.length description <= 300)%nat
    /\ ((String.length (cleaned text) <= 300)%nat -> description = cleaned text)
    /\ r !! "name" = Some (JStr (full_name_of disease_name))
    /\ r !! "symptoms" = Some (JList [])
    /\ r !! "cure"
       = Some (JStr "Please consult a dermatologist for proper treatment.")
    /\ r !! "precautions" = Some (JList [])
    /\ r !! "severity" = Some (JStr "moderate")
    /\ r !! "when_to_see_doctor"
       = Some (JStr "Consult a healthcare professional for proper diagnosis and treatment.").
Proof.
  intros Ho Hj.
  rewrite (get_disease_info_decode_error disease_name s text w msg Ho Hj).
  set (t := cleaned text).
  exists (parse_fallback (full_name_of disease_name) t),
         (if Nat.ltb 300 (String.length t) then slice_to 300 t else t).
  split; [reflexivity|]. unfold parse_fallback.
  rewrite record_description, record_name, record_symptoms, record_cure,
    record_precautions, record_severity, record_when_to_see_doctor.
  repeat split.
  - destruct (Nat.ltb_spec 300 (String.length t));
      [apply slice_to_prefix|apply prefix_refl].
  - destruct (Nat.ltb_spec 300 (String.length t));
      [apply slice_to_length|assumption].
  - intros Hlen. destruct (Nat.ltb_spec 300 (String.length t)); [lia|reflexivity].
Qed.

(** C8.  The record returned after a failure of the generator call and the
    record returned after a [JSONDecodeError] have the same keys and are never
    equal: the first has severity "unknown" and three generic precautions, the
    second severity "moderate" and no precautions. *)
Theorem C8_fallbacks_distinct (d1 d2 : string) (s1 s2 : io_state)
    (e : exn) (w1 : world) (text : string) (w2 : world) (msg : string) :
  outcome_of d1 s1 = (inl e, w1) ->
  outcome_of d2 s2 = (inr text, w2) ->
  json_loads (cleaned text) = inl (JSONDecodeError msg) ->
  exists r1 r2,
    get_disease_info d1 s1 = (inr r1, after_request d1 s1)
    /\ get_disease_info d2 s2 = (inr r2, after_request d2 s2)
    /\ dom r1 = dom r2
    /\ r1 <> r2
    /\ r1 !! "severity" = Some (JStr "unknown")
    /\ r2 !! "severity" = Some (JStr "moderate")
    /\ r1 !! "precautions"
       = Some (JList [JStr "Avoid excessive sun exposure"; JStr "Use sunscreen";
                      JStr "Keep skin moisturized"])
    /\ r2 !! "precautions" = Some (JList []).
Proof.
  intros Ho1 Ho2 Hj.
  rewrite (get_disease_info_transport_failure d1 s1 e w1 Ho1).
  rewrite (get_disease_info_decode_error d2 s2 text w2 msg Ho2 Hj).
  exists (fallback_info d1), (parse_fallback (full_name_of d2) (cleaned text)).
  split; [reflexivity|]. split; [reflexivity|].
  split; [now rewrite dom_fallback_info, dom_parse_fallback|].
  assert (Hs1 : fallback_info d1 !! "severity" = Some (JStr "unknown"))
    by (unfold fallback_info; apply record_severity).
  assert (Hs2 : parse_fallback (full_name_of d2) (cleaned text) !! "severity"
                = Some (JStr "moderate"))
    by (unfold parse_fallback; apply record_severity).
  split; [intros Heq; rewrite Heq in Hs1; congruence|].
  split; [exact Hs1|]. split; [exact Hs2|].
  split; [unfold fallback_info|unfold parse_fallback]; apply record_precautions.
Qed.

End AdapterClaims.

Lemma demo_timeout (d : string) :
  @outcome_of Demo.runtime d (Demo.start [])
  = (inl (Exception "DeadlineExceeded" "504 Deadline Exceeded"), []).
Proof. reflexivity. Qed.

Lemma demo_answer (d text : string) :
  @outcome_of Demo.runtime d (Demo.start [inr text]) = (inr text, []).
Proof. reflexivity. Qed.

Lemma demo_not_json :
  Demo.loads (cleaned "```not json```")
  = inl (JSONDecodeError "Expecting value: line 1 column 1 (char 0)").
Proof. vm_compute. reflexivity. Qed.

Lemma source_not_a_record_key : "source" ∉ record_keys.
Proof.
  unfold record_keys. rewrite elem_of_list_to_set.
  intros Hin.
  repeat (apply elem_of_cons in Hin as [Hin|Hin]; [discriminate Hin|]).
  now apply elem_of_nil in Hin.
Qed.





Lemma C10_exactly_seven_keys_witness :
  exists r,
    fst (@get_disease_info Demo.runtime "Acne" (Demo.start [inr Demo.sample_payload]))
    = inr r
    /\ r !! "source" = None.
Proof.
  destruct (@C10_exactly_seven_keys Demo.runtime "Acne"
              (Demo.start [inr Demo.sample_payload]))
    as (r & s' & Hrun & _ & Honly).
  exists r. split; [now rewrite Hrun|].
  apply Honly. exact source_not_a_record_key.
Defined.

Lemma C7_decode_error_record_witness :
  exists r,
    fst (@get_disease_info Demo.runtime "BCC" (Demo.start [inr "```not json```"]))
    = inr r
    /\ r !! "description" = Some (JStr "not json")
    /\ r !! "name" = Some (JStr "Basal Cell Carcinoma").
Proof.
  destruct (@C7_decode_error_record Demo.runtime "BCC"
              (Demo.start [inr "```not json```"]) "```not json```" [] _
              (demo_answer "BCC" "```not json```") demo_not_json)
    as (r & description & Hrun & Hd & _ & _ & Hshort & Hname & _).
  exists r. split; [now rewrite Hrun|].
  split; [|exact Hname].
  rewrite Hd, Hshort; [reflexivity|]. vm_compute. lia.
Defined.

(** C7 as stated fails: the description is cut from the cleaned text, which
    need not be a prefix of the text the generator returned.  Here the answer
    is wrapped in a Markdown fence. *)
Lemma C7_counterexample :
  exists r s' description,
    @get_disease_info Demo.runtime "Acne" (Demo.start [inr "```not json```"])
    = (inr r, s')
    /\ r !! "description" = Some (JStr description)
    /\ String.prefix description "```not json```" = false.
Proof.
  rewrite (@get_disease_info_decode_error Demo.runtime "Acne"
             (Demo.start [inr "```not json```"]) "```not json```" [] _
             (demo_answer "Acne" "```not json```") demo_not_json).
  eexists _, _, "not json". split; [reflexivity|].
  split; [|reflexivity].
  unfold parse_fallback. rewrite record_description. vm_compute. reflexivity.
Qed.

Lemma C8_fallbacks_distinct_witness :
  exists r1 r2,
    fst (@get_disease_info Demo.runtime "Acne" (Demo.start [])) = inr r1
    /\ fst (@get_disease_info Demo.runtime "BCC" (Demo.start [inr "```not json```"]))
       = inr r2
    /\ r1 <> r2.
Proof.
  destruct (@C8_fallbacks_distinct Demo.runtime "Acne" "BCC"
              (Demo.start []) (Demo.start [inr "```not json```"]) _ _ _ _ _
              (demo_timeout "Acne") (demo_answer "BCC" "```not json```")
              demo_not_json)
    as (r1 & r2 & Hrun1 & Hrun2 & _ & Hne & _).
  exists r1, r2. split; [now rewrite Hrun1|]. split; [now rewrite Hrun2|].
  exact Hne.
Defined.

(** ** The enrichment orchestrator (specification, section 4.4) *)



Lemma firstn_sorted {A} (R : A -> A -> Prop) (n : nat) (l : list A) :
  StronglySorted R l -> StronglySorted R (firstn n l).
Proof.
  intros Hs. revert n. induction Hs as [|x l Hs IH Hx]; intros [|n]; cbn;
    try constructor.
  - apply IH.
  - now apply Forall_take.
Qed.

Lemma alternates_of_sorted l infos :
  StronglySorted desc l ->
  StronglySorted
    (fun a b => (Alternate.probability b <= Alternate.probability a)%Q)
    (alternates_of l infos).
Proof.
  unfold alternates_of.
  induction 1 as [|x l Hs IH Hx]; cbn [map]; constructor; [exact IH|].
  apply Forall_forall. intros a Ha.
  apply list_elem_of_In, in_map_iff in Ha. destruct Ha as (y & <- & Hy).
  cbn. rewrite Forall_forall in Hx. apply Hx. now apply list_elem_of_In.
Qed.

Lemma analyze_scan_accepted `{Runtime} (file : UploadFile)
    (predict : image -> M prediction_result)
    (ct : string) (s s0 s1 s2 : io_state) (img : image)
    (pr : prediction_result) (r : Response.t) :
  content_type file = Some ct ->
  startswith "image/" ct = true ->
  open_rgb (content file) s = (inr img, s0) ->
  predict img s0 = (inr pr, s1) ->
  analyze_scan_response pr s1 = (inr r, s2) ->
  analyze_scan file predict s = (inr r, s2).
Proof.
  intros Hct Himg Hopen Hpred Hrun.
  unfold analyze_scan, http_errors, try_except. rewrite Hct, Himg.
  assert (Hne : String.eqb ct EmptyString = false).
  { destruct ct; [discriminate Himg|reflexivity]. }
  rewrite Hne. cbn [negb andb]. unfold bind. now rewrite Hopen, Hpred, Hrun.
Qed.

(** Opening an image sends nothing to the generator. *)
Lemma open_rgb_prompts `{Runtime} (image_bytes : string) (s s' : io_state)
    (r : exn + image) :
  open_rgb image_bytes s = (r, s') -> prompts s' = prompts s.
Proof.
  unfold open_rgb, bind, call_Image_open.
  destruct (Image_open image_bytes (ext s)) as [[e|img] w].
  - now intros [= <- <-].
  - destruct (negb _).
    + unfold lift. destruct (image_convert img "RGB"); now intros [= <- <-].
    + now intros [= <- <-].
Qed.

Section OrchestratorClaims.
Context `{Runtime}.


(** C4.  [alternate_diseases] never has more than 3 entries nor more entries
    than the distribution.  When the response is ambiguous, its entries are
    the first (at most 3) entries of the distribution ranked by descending
    probability; the generator is asked once for the primary disease and once
    for each other candidate; and when the primary is the top-ranked entry,
    the first element is the primary with the record fetched at the start. *)
Theorem C4_candidates (pr : prediction_result) (s : io_state) :
  exists di r s',
    get_disease_info (ModelService.disease pr) s
    = (inr di, after_request (ModelService.disease pr) s)
    /\ analyze_scan_response pr s = (inr r, s')
    /\ (length (Response.alternate_diseases r) <= 3)%nat
    /\ (length (Response.alternate_diseases r)
        <= length (ModelService.all_predictions pr))%nat
    /\ (Response.is_low_confidence r = true ->
        map (fun a => (Alternate.name a, Alternate.probability a))
            (Response.alternate_diseases r)
        = firstn 3 (ranked pr)
        /\ StronglySorted
             (fun a b => (Alternate.probability b <= Alternate.probability a)%Q)
             (Response.alternate_diseases r)
        /\ prompts s'
           = (prompts s
              ++ map request_for
                   (ModelService.disease pr
                    :: others (ModelService.disease pr) (firstn 3 (ranked pr))))%list
        /\ (top_is_primary pr ->
            exists rest,
              Response.alternate_diseases r
              = {| Alternate.name := ModelService.disease pr;
                   Alternate.probability := ModelService.confidence pr;
                   Alternate.disease_info := di |} :: rest)).
Proof.
  destruct (ambiguous_branch pr) eqn:Hb.
  - destruct (analyze_scan_response_ambiguous pr s Hb)
      as (di & infos & s' & Hdi & _ & Hloop & Hrun).
    eexists di, _, s'. split; [exact Hdi|]. split; [exact Hrun|].
    cbn [Response.alternate_diseases Response.is_low_confidence].
    rewrite alternates_of_length, alternates_of_entries.
    split; [apply firstn_le_length|].
    split.
    { rewrite length_firstn. unfold ranked, sorted_predictions.
      rewrite sorted_desc_length. lia. }
    intros _. split; [reflexivity|].
    split.
    { apply alternates_of_sorted, firstn_sorted.
      unfold ranked, sorted_predictions. apply sorted_desc_sorted. }
    destruct (for_each_candidates (ModelService.disease pr) di
                (firstn 3 (ranked pr)) ∅
                (after_request (ModelService.disease pr) s))
      as (infos' & s'' & Hloop' & Hp & Hin & _).
    rewrite Hloop in Hloop'. injection Hloop' as <- <-.
    split.
    { rewrite Hp. cbn [after_request prompts map].
      now rewrite <- app_assoc. }
    intros Htop. destruct (top_is_primary_ranked pr Htop) as (rest & Hr).
    rewrite Hr in *. cbn [firstn alternates_of map fst snd] in *.
    rewrite Hin by now left. cbn. eexists. reflexivity.
  - destruct (analyze_scan_response_plain pr s Hb) as (di & Hdi & _ & Hrun).
    eexists di, _, _. split; [exact Hdi|]. split; [exact Hrun|].
    cbn [Response.alternate_diseases Response.is_low_confidence length].
    split; [lia|]. split; [lia|].
    intros Hlow.
    assert (He : ranked pr = []).
    { unfold ambiguous_branch in Hb. rewrite Hlow in Hb. cbn [andb] in Hb.
      destruct (ranked pr); [reflexivity|discriminate]. }
    rewrite He. cbn [firstn map others List.filter after_request prompts].
    split; [reflexivity|]. split; [constructor|]. split; [reflexivity|].
    intros Htop. destruct (top_is_primary_ranked pr Htop) as (rest & Hr).
    congruence.
Qed.

(** C5.  A classifier output without any category is reported to the caller
    as an error and no analysis result is built: for an accepted upload and a
    loaded model whose softmax output is empty, [predict] raises and
    [analyze_scan] answers with an HTTP error carrying the message, without
    asking the generator anything.  No result of [predict] has an empty
    distribution. *)
Theorem C5_empty_distribution (self : ModelService.t) (file : UploadFile)
    (ct : string) (img : image) (s s0 : io_state) :
  is_loaded self = true -> model self = true -> processor self = true ->
  content_type file = Some ct ->
  startswith "image/" ct = true ->
  open_rgb (content file) s = (inr img, s0) ->
  softmax_logits img = inr [] ->
  predict self img s0
  = (inl (Exception "ValueError" "attempt to get argmax of an empty sequence"),
     s0)
  /\ analyze_scan file (predict self) s
     = (inl (HTTPException 500
               "Error analyzing image: attempt to get argmax of an empty sequence"),
        s0)
  /\ prompts s0 = prompts s
  /\ forall probabilities pr,
       prediction_of probabilities = inr pr ->
       ModelService.all_predictions pr <> [].
Proof.
  intros Hl Hm Hp Hct Himg Hopen Hsoft.
  pose proof (predict_loaded self img [] s0 Hl Hm Hp Hsoft) as Hpred.
  cbn [prediction_of argmax] in Hpred.
  split; [exact Hpred|]. split; [|split].
  - unfold analyze_scan, http_errors, try_except. rewrite Hct, Himg.
    assert (Hne : String.eqb ct EmptyString = false).
    { destruct ct; [discriminate Himg|reflexivity]. }
    rewrite Hne. cbn [negb andb]. unfold bind. rewrite Hopen, Hpred.
    reflexivity.
  - apply open_rgb_prompts in Hopen. exact Hopen.
  - apply prediction_of_not_empty.
Qed.

End OrchestratorClaims.

Lemma close_call_low_confidence : low_confidence Demo.close_call = true.
Proof. vm_compute. reflexivity. Qed.



Lemma C4_candidates_witness :
  exists r,
    fst (@analyze_scan_response Demo.runtime Demo.close_call (Demo.start []))
    = inr r
    /\ map (fun a => (Alternate.name a, Alternate.probability a))
           (Response.alternate_diseases r)
       = [("Melanoma", 0.55%Q); ("SCC", 0.40%Q); ("BCC", 0.05%Q)]
    /\ exists di rest,
         fst (@get_disease_info Demo.runtime "Melanoma" (Demo.start [])) = inr di
         /\ Response.alternate_diseases r
            = {| Alternate.name := "Melanoma";
                 Alternate.probability := 0.55%Q;
                 Alternate.disease_info := di |} :: rest.
Proof.
  destruct (@C4_candidates Demo.runtime Demo.close_call (Demo.start []))
    as (di & r & s' & Hdi & Hrun & _ & _ & Hamb).
  destruct (@analyze_scan_response_decision Demo.runtime Demo.close_call
              (Demo.start [])) as (r' & s'' & Hrun' & Hlow).
  rewrite Hrun in Hrun'. injection Hrun' as <- <-.
  rewrite close_call_low_confidence in Hlow.
  destruct (Hamb Hlow) as (Hentries & _ & _ & Hfirst).
  destruct (Hfirst close_call_top_is_primary) as (rest & Hrest).
  exists r. split; [now rewrite Hrun|].
  split; [rewrite Hentries; vm_compute; reflexivity|].
  exists di, rest. split; [|exact Hrest].
  change "Melanoma" with (ModelService.disease Demo.close_call).
  now rewrite Hdi.
Defined.

Lemma demo_open_rgb (probabilities : list Q)
    (s : @io_state (Demo.runtime_of probabilities)) :
  @open_rgb (Demo.runtime_of probabilities) (content Demo.upload) s
  = (inr tt, s).
Proof. destruct s. reflexivity. Qed.

Lemma C5_empty_distribution_witness :
  fst (@analyze_scan Demo.no_class_runtime Demo.upload
         (@predict Demo.no_class_runtime Demo.loaded)
         (@IOState Demo.no_class_runtime [] []))
  = inl (HTTPException 500
           "Error analyzing image: attempt to get argmax of an empty sequence").
Proof.
  destruct (@C5_empty_distribution Demo.no_class_runtime Demo.loaded Demo.upload
              "image/x-portable-pixmap" tt
              (@IOState Demo.no_class_runtime [] [])
              (@IOState Demo.no_class_runtime [] [])
              eq_refl eq_refl eq_refl eq_refl eq_refl
              (demo_open_rgb [] _) eq_refl)
    as (_ & -> & _).
  reflexivity.
Defined.

(** * Further properties of the code *)

(** ** [ModelService.predict] *)

(** [argmax] returns the first index of a greatest element. *)
Lemma argmax_spec (a : list Q) (i : nat) :
  argmax a = Some i ->
  (i < length a)%nat
  /\ (forall j, (j < length a)%nat -> (nth j a 0 <= nth i a 0)%Q)
  /\ (forall j, (j < i)%nat -> (nth j a 0 < nth i a 0)%Q).
Proof.
  revert i. induction a as [|x a IH]; intros i; cbn [argmax]; [discriminate|].
  destruct (argmax a) as [j0|] eqn:Ea.
  - destruct (IH j0 eq_refl) as (Hlt & Hmax & Hfirst).
    destruct (Qle_bool (nth j0 a 0%Q) x) eqn:E; intros [= <-].
    + apply Qle_bool_iff in E. split; [cbn; lia|]. split; [|lia].
      intros [|j] Hj; cbn; [apply Qle_refl|].
      apply Qle_trans with (nth j0 a 0%Q); [apply Hmax; cbn in Hj; lia|exact E].
    + apply Qle_bool_false in E. split; [cbn; lia|]. split.
      * intros [|j] Hj; cbn; [now apply Qlt_le_weak|].
        apply Hmax. cbn in Hj. lia.
      * intros [|j] Hj; cbn; [exact E|]. apply Hfirst. lia.
  - intros [= <-]. apply argmax_none in Ea. subst a.
    split; [cbn; lia|]. split; [|lia].
    intros [|[|j]] Hj; cbn; try apply Qle_refl; cbn in Hj; lia.
Qed.

(** The result [predict] builds from six probabilities. *)
Lemma prediction_of_six (p0 p1 p2 p3 p4 p5 : Q) :
  exists i,
    argmax [p0; p1; p2; p3; p4; p5] = Some i
    /\ (i < 6)%nat
    /\ prediction_of [p0; p1; p2; p3; p4; p5]
       = inr {| ModelService.disease := default "Unknown" (DISEASE_CATEGORIES !! i);
                ModelService.confidence := nth i [p0; p1; p2; p3; p4; p5] 0%Q;
                ModelService.predicted_class_id := i;
                ModelService.all_predictions :=
                  [("Acne", p0); ("BCC", p1); ("Eczema", p2);
                   ("Melanoma", p3); ("Psoriasis", p4); ("SCC", p5)] |}.
Proof.
  destruct (argmax [p0; p1; p2; p3; p4; p5]) as [i|] eqn:Ei.
  - exists i. split; [reflexivity|].
    split; [exact (proj1 (argmax_spec _ _ Ei))|].
    unfold prediction_of. rewrite Ei, class_probabilities_six. reflexivity.
  - apply argmax_none in Ei. discriminate.
Qed.

(** X1.  For six probabilities, the disease and the confidence [predict]
    reports are the label and the probability of the entry that
    [sorted_predictions] ranks first. *)
Theorem X1_primary_is_top_ranked (probabilities : list Q)
    (pr : prediction_result) :
  length probabilities = 6%nat ->
  prediction_of probabilities = inr pr ->
  hd_error (sorted_predictions (ModelService.all_predictions pr))
  = Some (ModelService.disease pr, ModelService.confidence pr).
Proof. apply prediction_of_top_is_primary. Qed.

(** X2.  For six probabilities [predict]'s post-processing succeeds: the six
    categories are listed in enumeration order with their probabilities, the
    reported pair is one of them, no category has a probability above the
    reported confidence, and every category before the predicted one has a
    smaller probability (among equal maxima the first is reported). *)
Theorem X2_confidence_is_maximum (probabilities : list Q) :
  length probabilities = 6%nat ->
  exists pr,
    prediction_of probabilities = inr pr
    /\ map fst (ModelService.all_predictions pr)
       = ["Acne"; "BCC"; "Eczema"; "Melanoma"; "Psoriasis"; "SCC"]
    /\ map snd (ModelService.all_predictions pr) = probabilities
    /\ In (ModelService.disease pr, ModelService.confidence pr)
          (ModelService.all_predictions pr)
    /\ (forall label p,
          In (label, p) (ModelService.all_predictions pr) ->
          (p <= ModelService.confidence pr)%Q)
    /\ forall j,
         (j < ModelService.predicted_class_id pr)%nat ->
         (nth j probabilities 0 < ModelService.confidence pr)%Q.
Proof.
  intros Hlen.
  destruct probabilities as [|p0 [|p1 [|p2 [|p3 [|p4 [|p5 [|]]]]]]];
    try discriminate Hlen. clear Hlen.
  destruct (prediction_of_six p0 p1 p2 p3 p4 p5) as (i & Ei & Hi & Hrun).
  eexists. split; [exact Hrun|].
  cbn [ModelService.all_predictions ModelService.disease
       ModelService.confidence ModelService.predicted_class_id].
  split; [reflexivity|]. split; [reflexivity|].
  destruct (argmax_spec _ _ Ei) as (_ & Hmax & Hfirst).
  split; [|split; [|exact Hfirst]].
  - clear -Hi. do 6 (destruct i as [|i]; [vm_compute; tauto|]). lia.
  - intros label p Hin. cbn in Hin.
    repeat (destruct Hin as [[= <- <-]|Hin];
            [match goal with
             | |- (?q <= _)%Q =>
                 first [ apply (Hmax 0%nat); cbn; lia
                       | apply (Hmax 1%nat); cbn; lia
                       | apply (Hmax 2%nat); cbn; lia
                       | apply (Hmax 3%nat); cbn; lia
                       | apply (Hmax 4%nat); cbn; lia
                       | apply (Hmax 5%nat); cbn; lia ]
             end|]).
    destruct Hin.
Qed.

Lemma X1_primary_is_top_ranked_witness :
  exists pr,
    prediction_of [0.85; 0.05; 0.10; 0; 0; 0]%Q = inr pr
    /\ hd_error (sorted_predictions (ModelService.all_predictions pr))
       = Some ("Acne", 0.85%Q).
Proof.
  eexists. split; [vm_compute; reflexivity|].
  exact (X1_primary_is_top_ranked [0.85; 0.05; 0.10; 0; 0; 0]%Q _
           eq_refl eq_refl).
Defined.

Lemma X2_confidence_is_maximum_witness :
  exists pr,
    prediction_of [0.10; 0.05; 0.85; 0; 0; 0]%Q = inr pr
    /\ forall label p,
         In (label, p) (ModelService.all_predictions pr) ->
         (p <= ModelService.confidence pr)%Q.
Proof.
  destruct (X2_confidence_is_maximum [0.10; 0.05; 0.85; 0; 0; 0]%Q eq_refl)
    as (pr & Hrun & _ & _ & _ & Hmax & _).
  exists pr. split; [exact Hrun|exact Hmax].
Defined.

(** X3.  With fewer than six probabilities [predict]'s post-processing raises
    and builds no result: [ValueError] for an empty array, and otherwise the
    [IndexError] of the dict comprehension at the first missing index, whose
    message names that index and the size of the array. *)
Theorem X3_too_few_probabilities (probabilities : list Q) :
  (length probabilities < 6)%nat ->
  prediction_of probabilities
  = inl (if Nat.eqb (length probabilities) 0
         then Exception "ValueError" "attempt to get argmax of an empty sequence"
         else Exception "IndexError"
                ("index " +:+ str_of_nat (length probabilities)
                 +:+ " is out of bounds for axis 0 with size "
                 +:+ str_of_nat (length probabilities))).
Proof.
  intros Hlen. unfold prediction_of.
  rewrite (class_probabilities_short probabilities Hlen).
  destruct (argmax probabilities) as [i|] eqn:Ei.
  - destruct probabilities; [discriminate Ei|reflexivity].
  - apply argmax_none in Ei. now subst.
Qed.

Lemma X3_too_few_probabilities_witness :
  prediction_of [0.5; 0.5]%Q
  = inl (Exception "IndexError"
           "index 2 is out of bounds for axis 0 with size 2").
Proof.
  rewrite (X3_too_few_probabilities [0.5; 0.5]%Q); [reflexivity|cbn; lia].
Defined.

Lemma DISEASE_CATEGORIES_beyond (i : nat) :
  (6 <= i)%nat -> DISEASE_CATEGORIES !! i = None.
Proof.
  intros Hi. unfold DISEASE_CATEGORIES. apply not_elem_of_list_to_map_1.
  cbn. intros Hin.
  repeat (apply elem_of_cons in Hin as [->|Hin]; [lia|]).
  now apply elem_of_nil in Hin.
Qed.

(** X4.  When the array holds more than six probabilities and its maximum
    lies beyond the sixth, [predict] reports the disease "Unknown" with that
    maximum as confidence, while [all_predictions] lists the six categories
    only. *)
Theorem X4_unknown_class (probabilities : list Q) (i : nat)
    (pr : prediction_result) :
  argmax probabilities = Some i ->
  (6 <= i)%nat ->
  prediction_of probabilities = inr pr ->
  ModelService.disease pr = "Unknown"
  /\ ModelService.confidence pr = nth i probabilities 0%Q
  /\ length (ModelService.all_predictions pr) = 6%nat.
Proof.
  intros Ei Hi. unfold prediction_of. rewrite Ei.
  rewrite (DISEASE_CATEGORIES_beyond i Hi).
  destruct (argmax_spec _ _ Ei) as (Hlen & _).
  destruct probabilities as [|p0 [|p1 [|p2 [|p3 [|p4 [|p5 l]]]]]];
    try (cbn in Hlen; lia).
  change (class_probabilities (p0 :: p1 :: p2 :: p3 :: p4 :: p5 :: l)
            (seq 0 (size DISEASE_CATEGORIES)) [])
    with (@inr exn _ [("Acne", p0); ("BCC", p1); ("Eczema", p2);
                      ("Melanoma", p3); ("Psoriasis", p4); ("SCC", p5)]).
  intros [= <-]. cbn. auto.
Qed.

Lemma X4_unknown_class_witness :
  exists pr,
    prediction_of [0.1; 0; 0; 0; 0; 0; 0.9]%Q = inr pr
    /\ ModelService.disease pr = "Unknown"
    /\ ModelService.confidence pr = 0.9%Q.
Proof.
  eexists. split; [vm_compute; reflexivity|].
  destruct (X4_unknown_class [0.1; 0; 0; 0; 0; 0; 0.9]%Q 6 _
              eq_refl (le_n 6) eq_refl) as (Hd & Hc & _).
  split; [exact Hd|exact Hc].
Defined.

(** ** The two endpoints *)

Section EndpointProperties.
Context `{Runtime}.

(** X5.  A service whose model is not loaded raises [RuntimeError] from
    [predict] without touching the state, and [analyze_scan] reports it for
    an accepted upload as HTTP 500 with the prefixed message. *)
Theorem X5_model_not_loaded (self : ModelService.t) (file : UploadFile)
    (ct : string) (img : image) (s s0 : io_state) :
  is_loaded self && model self = false ->
  content_type file = Some ct ->
  startswith "image/" ct = true ->
  open_rgb (content file) s = (inr img, s0) ->
  predict self img s0
  = (inl (Exception "RuntimeError" "Model not loaded. Call load_model() first."),
     s0)
  /\ analyze_scan file (predict self) s
     = (inl (HTTPException 500
               "Error analyzing image: Model not loaded. Call load_model() first."),
        s0).
Proof.
  intros Hload Hct Himg Hopen.
  assert (Hp : predict self img s0
               = (inl (Exception "RuntimeError"
                         "Model not loaded. Call load_model() first."), s0)).
  { unfold predict.
    destruct (is_loaded self), (model self); try discriminate Hload;
      reflexivity. }
  split; [exact Hp|].
  unfold analyze_scan, http_errors, try_except. rewrite Hct, Himg.
  assert (Hne : String.eqb ct EmptyString = false).
  { destruct ct; [discriminate Himg|reflexivity]. }
  rewrite Hne. cbn [negb andb]. unfold bind. rewrite Hopen, Hp. reflexivity.
Qed.

(** X6.  An upload without a content type, or whose content type does not
    start with "image/", is refused with HTTP 400 before anything else
    happens: the image is not opened, the classifier is not called and the
    state is unchanged. *)
Theorem X6_not_an_image (file : UploadFile)
    (predict : image -> M prediction_result) (s : io_state) :
  match content_type file with
  | Some ct => startswith "image/" ct = false
  | None => True
  end ->
  analyze_scan file predict s
  = (inl (HTTPException 400 "File must be an image"), s).
Proof.
  intros Hct. unfold analyze_scan, http_errors, try_except.
  destruct (content_type file) as [ct|]; [|reflexivity].
  rewrite Hct, andb_false_r. reflexivity.
Qed.

(** X7.  Whatever the upload, the request and the classifier do, an endpoint
    that fails raises an [HTTPException]: every other exception is turned into
    one. *)
Theorem X7_only_http_errors (file : UploadFile) (request : gmap string string)
    (predict : image -> M prediction_result) (s s' : io_state) (e : exn) :
  analyze_scan file predict s = (inl e, s')
  \/ analyze_scan_base64 request predict s = (inl e, s') ->
  exists status_code detail, e = HTTPException status_code detail.
Proof.
  unfold analyze_scan, analyze_scan_base64, http_errors, try_except.
  intros [Hrun|Hrun];
    match type of Hrun with
    | (let (_, _) := ?body in _) = _ =>
        destruct body as [[e0|r] s0]; [|discriminate Hrun];
        destruct e0; injection Hrun as <- <-; eauto
    | match ?body with _ => _ end = _ =>
        destruct body as [[e0|r] s0]; [|discriminate Hrun];
        destruct e0; injection Hrun as <- <-; eauto
    end.
Qed.

(** X8.  A request whose [image_base64] is missing or empty is refused with
    HTTP 400 and the state is unchanged. *)
Theorem X8_image_base64_required (request : gmap string string)
    (predict : image -> M prediction_result) (s : io_state) :
  request !! "image_base64" = None
  \/ request !! "image_base64" = Some EmptyString ->
  analyze_scan_base64 request predict s
  = (inl (HTTPException 400 "image_base64 is required"), s).
Proof.
  intros [Hr|Hr]; unfold analyze_scan_base64, http_errors, try_except;
    rewrite Hr; reflexivity.
Qed.

(** X22.  For an accepted upload, an exception raised by the classifier call
    reaches the caller as follows: an [HTTPException] unchanged, any other
    exception as HTTP 500 whose detail is "Error analyzing image: " followed
    by the exception's message; the same holds when opening the image fails.
    No request is sent to the generator in either case. *)
Theorem X22_error_translation (file : UploadFile)
    (predict : image -> M prediction_result) (ct : string) (e : exn)
    (s : io_state) :
  content_type file = Some ct ->
  startswith "image/" ct = true ->
  let reported :=
    match e with
    | HTTPException _ _ => e
    | _ => HTTPException 500 ("Error analyzing image: " +:+ exn_str e)
    end in
  (forall w,
     Image_open (content file) (ext s) = (inl e, w) ->
     analyze_scan file predict s
     = (inl reported, {| ext := w; prompts := prompts s |}))
  /\ (forall img s0 s1,
        open_rgb (content file) s = (inr img, s0) ->
        predict img s0 = (inl e, s1) ->
        analyze_scan file predict s = (inl reported, s1)).
Proof.
  intros Hct Himg reported.
  assert (Hne : String.eqb ct EmptyString = false).
  { destruct ct; [discriminate Himg|reflexivity]. }
  split.
  - intros w Hopen. unfold analyze_scan, http_errors, try_except.
    rewrite Hct, Himg, Hne. cbn [negb andb].
    unfold bind, open_rgb, bind, call_Image_open.
    rewrite Hopen. subst reported. destruct e; reflexivity.
  - intros img s0 s1 Hopen Hpred. unfold analyze_scan, http_errors, try_except.
    rewrite Hct, Himg, Hne. cbn [negb andb]. unfold bind.
    rewrite Hopen, Hpred. subst reported. destruct e; reflexivity.
Qed.

End EndpointProperties.

(** *** The data-URL prefix *)

Lemma append_String (c : ascii) (s t : string) :
  String c s +:+ t = String c (s +:+ t).
Proof. reflexivity. Qed.

Lemma after_comma_app (before rest : string) :
  after_comma before = None ->
  after_comma (before +:+ "," +:+ rest) = Some rest.
Proof.
  induction before as [|c before IH]; [reflexivity|].
  rewrite append_String. cbn [after_comma].
  destruct (Ascii.eqb c ","); [discriminate|exact IH].
Qed.

Lemma until_comma_app (before rest : string) :
  after_comma before = None ->
  until_comma (before +:+ "," +:+ rest) = before.
Proof.
  induction before as [|c before IH]; [reflexivity|].
  rewrite append_String. cbn [after_comma until_comma].
  destruct (Ascii.eqb c ","); [discriminate|]. intros Hb. now rewrite IH.
Qed.

Lemma until_comma_none (s : string) :
  after_comma s = None -> until_comma s = s.
Proof.
  induction s as [|c s IH]; cbn; [reflexivity|].
  destruct (Ascii.eqb c ","); [discriminate|]. intros Hb. now rewrite IH.
Qed.

(** X9.  The text handed to [b64decode]: a text without a comma is decoded as
    it is; of a data URL "prefix,payload" only the payload is kept; and when
    the text holds a second comma, what follows it is dropped as well. *)
Theorem X9_data_url_prefix (prefix payload rest : string) :
  after_comma prefix = None ->
  after_comma payload = None ->
  without_data_url_prefix payload = payload
  /\ without_data_url_prefix (prefix +:+ "," +:+ payload) = payload
  /\ without_data_url_prefix (prefix +:+ "," +:+ payload +:+ "," +:+ rest)
     = payload.
Proof.
  intros Hp Hq. unfold without_data_url_prefix.
  rewrite Hq, !after_comma_app by exact Hp.
  rewrite until_comma_none by exact Hq.
  rewrite until_comma_app by exact Hq. auto.
Qed.

Lemma X9_data_url_prefix_witness :
  without_data_url_prefix "data:image/jpeg;base64,AAAA" = "AAAA".
Proof.
  exact (proj1 (proj2 (X9_data_url_prefix "data:image/jpeg;base64" "AAAA"
                         EmptyString eq_refl eq_refl))).
Defined.

Section EndpointsTogether.
Context `{Runtime}.

(** X10.  The two endpoints answer alike on an image that opens: when the
    request's text decodes to the content of an upload with an image content
    type and [Image.open] accepts those bytes, [analyze_scan_base64] and
    [analyze_scan] return the same response, or the same error of the
    classifier, and leave the same state. *)
Theorem X10_same_answer (file : UploadFile) (request : gmap string string)
    (predict : image -> M prediction_result) (ct image_base64 : string)
    (img : image) (s s0 : io_state) :
  content_type file = Some ct ->
  startswith "image/" ct = true ->
  request !! "image_base64" = Some image_base64 ->
  image_base64 <> EmptyString ->
  b64decode (without_data_url_prefix image_base64) = inr (content file) ->
  open_rgb (content file) s = (inr img, s0) ->
  analyze_scan_base64 request predict s = analyze_scan file predict s
  /\ forall pr s1,
       predict img s0 = (inr pr, s1) ->
       analyze_scan_base64 request predict s = analyze_scan_response pr s1.
Proof.
  intros Hct Himg Hreq Hne Hdec Hopen.
  assert (Hc : String.eqb ct EmptyString = false).
  { destruct ct; [discriminate Himg|reflexivity]. }
  apply String.eqb_neq in Hne.
  assert (Hsame : analyze_scan_base64 request predict s
                  = analyze_scan file predict s).
  { unfold analyze_scan_base64, analyze_scan, http_errors, try_except.
    rewrite Hct, Himg, Hreq.
    cbn [default from_option id]. rewrite Hc, Hne, Hdec. reflexivity. }
  split; [exact Hsame|].
  intros pr s1 Hpred. rewrite Hsame.
  destruct (analyze_scan_response_decision pr s1) as (r & s' & Hrun & _).
  rewrite Hrun.
  exact (analyze_scan_accepted file predict ct s s0 s1 s' img pr r
           Hct Himg Hopen Hpred Hrun).
Qed.

Lemma analyze_scan_response_echo (pr : prediction_result) (s : io_state) :
  exists r s',
    analyze_scan_response pr s = (inr r, s')
    /\ Response.disease r = ModelService.disease pr
    /\ Response.confidence r = ModelService.confidence pr
    /\ Response.all_predictions r = ModelService.all_predictions pr
    /\ Response.is_low_confidence r = low_confidence pr.
Proof.
  destruct (ambiguous_branch pr) eqn:Hb.
  - destruct (analyze_scan_response_ambiguous pr s Hb)
      as (di & infos & s' & _ & _ & _ & Hrun).
    eexists _, s'. split; [exact Hrun|]. cbn.
    unfold ambiguous_branch in Hb. apply andb_true_iff in Hb.
    destruct Hb as [-> _]. auto.
  - destruct (analyze_scan_response_plain pr s Hb) as (di & _ & _ & Hrun).
    eexists _, _. split; [exact Hrun|]. cbn. auto.
Qed.

(** X11.  The whole path with the repository's classifier service: for an
    accepted upload, a loaded model and six class probabilities,
    [analyze_scan] returns a response and no error; its disease and
    confidence are those of the top-ranked entry of [all_predictions], and its
    [is_low_confidence] is the rule of section 4.1 applied to that
    distribution. *)
Theorem X11_analysis_of_six_classes (self : ModelService.t) (file : UploadFile)
    (ct : string) (img : image) (probabilities : list Q) (s s0 : io_state) :
  is_loaded self = true -> model self = true -> processor self = true ->
  content_type file = Some ct ->
  startswith "image/" ct = true ->
  open_rgb (content file) s = (inr img, s0) ->
  softmax_logits img = inr probabilities ->
  length probabilities = 6%nat ->
  exists r s',
    analyze_scan file (predict self) s = (inr r, s')
    /\ map snd (Response.all_predictions r) = probabilities
    /\ hd_error (sorted_predictions (Response.all_predictions r))
       = Some (Response.disease r, Response.confidence r)
    /\ Response.is_low_confidence r
       = spec_is_ambiguous 0.70 0.20 (Response.all_predictions r).
Proof.
  intros Hl Hm Hp Hct Himg Hopen Hsoft Hlen.
  destruct probabilities as [|p0 [|p1 [|p2 [|p3 [|p4 [|p5 [|]]]]]]];
    try discriminate Hlen.
  destruct (prediction_of_six p0 p1 p2 p3 p4 p5) as (i & _ & _ & Hpr).
  set (pr := {| ModelService.disease := _ |}) in Hpr.
  pose proof (prediction_of_top_is_primary _ pr Hlen Hpr) as Htop.
  destruct (analyze_scan_response_echo pr s0)
    as (r & s' & Hrun & Hd & Hc & Hall & Hlow).
  exists r, s'. split.
  - pose proof (predict_loaded self img _ s0 Hl Hm Hp Hsoft) as Hpred.
    rewrite Hpr in Hpred.
    exact (analyze_scan_accepted file (predict self) ct s s0 s0 s' img pr r
             Hct Himg Hopen Hpred Hrun).
  - rewrite Hall, Hd, Hc, Hlow. split; [reflexivity|]. split; [exact Htop|].
    unfold low_confidence. rewrite spec_is_ambiguous_ranked.
    + now rewrite (top_is_primary_confidence pr Htop).
    + destruct (top_is_primary_ranked pr Htop) as (rest & ->). discriminate.
Qed.

End EndpointsTogether.

(** ** [DiseaseInfoService.get_disease_info] *)

Section AdapterProperties.
Context `{Runtime}.

(** X12.  Every call of [get_disease_info] sends exactly one request to the
    generator, with the prompt built from the full name of the disease, and
    leaves the outside world as that request left it, whatever the answer. *)
Theorem X12_one_request_per_call (disease_name : string) (s : io_state) :
  prompts (snd (get_disease_info disease_name s))
  = (prompts s ++ [prompt_for (full_name_of disease_name)])%list
  /\ ext (snd (get_disease_info disease_name s))
     = snd (generate_content (prompt_for (full_name_of disease_name)) (ext s)).
Proof.
  destruct (get_disease_info_returns disease_name s) as (r & -> & _).
  split; reflexivity.
Qed.

(** X13.  An answer that is valid JSON but not an object (an array, a text,
    a number, [null]) is not given the malformed-text record: the [get] on it
    raises and the caller receives the same fallback record as after a failed
    request. *)
Theorem X13_not_an_object (disease_name : string) (s : io_state)
    (text : string) (w : world) (j : json) :
  outcome_of disease_name s = (inr text, w) ->
  json_loads (cleaned text) = inr j ->
  not_a_dict j ->
  get_disease_info disease_name s
  = (inr (fallback_info disease_name), after_request disease_name s)
  /\ fallback_info disease_name
     <> parse_fallback (full_name_of disease_name) (cleaned text).
Proof.
  intros Ho Hj Hnd. split.
  - exact (get_disease_info_not_a_dict disease_name s text w j Ho Hj Hnd).
  - intros Heq.
    assert (H1 : fallback_info disease_name !! "severity" = Some (JStr "unknown"))
      by (unfold fallback_info; apply record_severity).
    rewrite Heq in H1. unfold parse_fallback in H1.
    rewrite record_severity in H1. discriminate H1.
Qed.

(** X14.  When the answer decodes to an object, each of the seven fields is
    the payload's value for that key, whatever its type, and a missing key
    gets its default: the full name, empty texts, empty lists, "moderate" and
    the generic sentence. *)
Theorem X14_fields_of_an_object (disease_name : string) (s : io_state)
    (text : string) (w : world) (m : gmap string json) :
  outcome_of disease_name s = (inr text, w) ->
  json_loads (cleaned text) = inr (JDict m) ->
  exists r,
    get_disease_info disease_name s = (inr r, after_request disease_name s)
    /\ (forall key v, key ∈ record_keys -> m !! key = Some v -> r !! key = Some v)
    /\ (m !! "name" = None ->
        r !! "name" = Some (JStr (full_name_of disease_name)))
    /\ (m !! "description" = None -> r !! "description" = Some (JStr EmptyString))
    /\ (m !! "symptoms" = None -> r !! "symptoms" = Some (JList []))
    /\ (m !! "cure" = None -> r !! "cure" = Some (JStr EmptyString))
    /\ (m !! "precautions" = None -> r !! "precautions" = Some (JList []))
    /\ (m !! "severity" = None -> r !! "severity" = Some (JStr "moderate"))
    /\ (m !! "when_to_see_doctor" = None ->
        r !! "when_to_see_doctor"
        = Some (JStr "Consult a healthcare professional.")).
Proof.
  intros Ho Hj.
  rewrite (get_disease_info_parsed disease_name s text w m Ho Hj).
  eexists. split; [reflexivity|].
  rewrite record_name, record_description, record_symptoms, record_cure,
    record_precautions, record_severity, record_when_to_see_doctor.
  split.
  - intros key v Hkey Hv. unfold record_keys in Hkey.
    rewrite elem_of_list_to_set in Hkey.
    repeat (apply elem_of_cons in Hkey as [->|Hkey];
            [first [ rewrite record_name | rewrite record_description
                   | rewrite record_symptoms | rewrite record_cure
                   | rewrite record_precautions | rewrite record_severity
                   | rewrite record_when_to_see_doctor ];
             now rewrite Hv|]).
    now apply elem_of_nil in Hkey.
  - repeat split; intros ->; reflexivity.
Qed.

End AdapterProperties.

(** ** Cleaning the generated text *)

Lemma rstrip_idempotent (s : string) : rstrip (rstrip s) = rstrip s.
Proof.
  induction s as [|c s IH]; [reflexivity|]. cbn [rstrip].
  destruct (rstrip s) as [|c' r] eqn:Er.
  - destruct (isspace c) eqn:Ec; [reflexivity|]. cbn [rstrip]. now rewrite Ec.
  - cbn [rstrip]. cbn [rstrip] in IH.
    destruct (rstrip r) as [|c'' r'] eqn:Er'.
    + destruct (isspace c') eqn:Ec'; [discriminate IH|]. now rewrite IH.
    + now rewrite IH.
Qed.

Lemma lstrip_head (s : string) :
  match lstrip s with
  | EmptyString => True
  | String c _ => isspace c = false
  end.
Proof.
  induction s as [|c s IH]; cbn [lstrip]; [exact I|].
  destruct (isspace c) eqn:Ec; [exact IH|exact Ec].
Qed.

Lemma rstrip_head (c : ascii) (s : string) :
  isspace c = false -> exists r, rstrip (String c s) = String c r.
Proof.
  intros Hc. cbn [rstrip]. destruct (rstrip s); [rewrite Hc|]; eauto.
Qed.

Lemma lstrip_strip (s : string) : lstrip (strip s) = strip s.
Proof.
  unfold strip. pose proof (lstrip_head s) as Hh.
  destruct (lstrip s) as [|c u]; [reflexivity|].
  destruct (rstrip_head c u Hh) as (r & ->). cbn [lstrip]. now rewrite Hh.
Qed.

Lemma strip_idempotent (s : string) : strip (strip s) = strip s.
Proof.
  unfold strip at 1. rewrite lstrip_strip. unfold strip.
  apply rstrip_idempotent.
Qed.

(** X15.  The text [get_disease_info] hands on after removing the Markdown
    fence carries no white space at either end: stripping it again, on the
    left, on the right or on both sides, changes nothing. *)
Theorem X15_remove_markdown_stripped (text : string) :
  lstrip (remove_markdown text) = remove_markdown text
  /\ rstrip (remove_markdown text) = remove_markdown text
  /\ strip (remove_markdown text) = remove_markdown text.
Proof.
  unfold remove_markdown.
  set (t := if endswith _ _ then _ else _).
  split; [apply lstrip_strip|].
  split; [unfold strip; apply rstrip_idempotent|apply strip_idempotent].
Qed.

(** *** The fence *)

Lemma length_append (s t : string) :
  String.length (s +:+ t) = (String.length s + String.length t)%nat.
Proof.
  induction s as [|c s IH]; [reflexivity|].
  rewrite append_String. cbn [String.length]. now rewrite IH.
Qed.

Lemma slice_from_append (s t : string) :
  slice_from (String.length s) (s +:+ t) = t.
Proof.
  induction s as [|c s IH]; [reflexivity|].
  rewrite append_String. cbn [String.length slice_from]. exact IH.
Qed.

Lemma slice_to_append (s t : string) :
  slice_to (String.length s) (s +:+ t) = s.
Proof.
  induction s as [|c s IH]; [now destruct t|].
  rewrite append_String. cbn [String.length slice_to]. now rewrite IH.
Qed.

Lemma startswith_append (p t : string) : startswith p (p +:+ t) = true.
Proof.
  unfold startswith. induction p as [|c p IH]; [now destruct t|].
  rewrite append_String. cbn [String.prefix]. rewrite IH.
  now destruct (ascii_dec c c).
Qed.

Lemma endswith_append (s p : string) : endswith p (s +:+ p) = true.
Proof.
  unfold endswith. rewrite length_append.
  replace (String.length s + String.length p - String.length p)%nat
    with (String.length s) by lia.
  rewrite slice_from_append, String.eqb_refl.
  apply andb_true_iff. split; [apply Nat.leb_le; lia|reflexivity].
Qed.

Lemma slice_to_neg_append (s p : string) :
  slice_to_neg (String.length p) (s +:+ p) = s.
Proof.
  unfold slice_to_neg. rewrite length_append.
  replace (String.length s + String.length p - String.length p)%nat
    with (String.length s) by lia.
  apply slice_to_append.
Qed.

Lemma rstrip_append_fence (s : string) : rstrip (s +:+ "```") = s +:+ "```".
Proof.
  induction s as [|c s IH]; [reflexivity|].
  rewrite append_String. cbn [rstrip]. rewrite IH.
  destruct s; reflexivity.
Qed.

(** X16.  A text wrapped in a fence opened by three backquotes and "json"
    and closed by three backquotes is reduced to its body, stripped of
    surrounding white space. *)
Theorem X16_fenced_json (body : string) :
  remove_markdown ("```json" +:+ body +:+ "```") = strip body.
Proof.
  unfold remove_markdown.
  assert (Hs : strip ("```json" +:+ body +:+ "```")
               = "```json" +:+ body +:+ "```").
  { unfold strip.
    change (lstrip ("```json" +:+ body +:+ "```"))
      with ("```json" +:+ body +:+ "```").
    change ("```json" +:+ body +:+ "```")
      with (("```json" +:+ body) +:+ "```") at 1.
    rewrite rstrip_append_fence. reflexivity. }
  rewrite Hs, startswith_append.
  change 7%nat with (String.length "```json").
  rewrite slice_from_append, endswith_append.
  change 3%nat with (String.length "```").
  now rewrite slice_to_neg_append.
Qed.

(** *** The search for the JSON object *)

Lemma scan_object_sound (inner : bool) (s m : string) :
  scan_object inner s = Some m ->
  (exists body, m = body +:+ "}")
  /\ (exists post, s = m +:+ post)
  /\ scan_object inner m = Some m.
Proof.
  revert inner m. induction s as [|c s IH]; intros inner m; cbn [scan_object];
    [discriminate|].
  destruct (Ascii.eqb c lbrace) eqn:El.
  - destruct inner; [discriminate|].
    destruct (scan_object true s) as [m'|] eqn:Es; [|discriminate].
    intros [= <-]. destruct (IH true m' Es) as ((body & ->) & (post & ->) & Hm).
    split; [exists (String c body); reflexivity|].
    split; [exists post; reflexivity|].
    cbn [scan_object]. rewrite El, Hm. reflexivity.
  - destruct (Ascii.eqb c rbrace) eqn:Er.
    + destruct inner.
      * destruct (scan_object false s) as [m'|] eqn:Es; [|discriminate].
        intros [= <-].
        destruct (IH false m' Es) as ((body & ->) & (post & ->) & Hm).
        split; [exists (String c body); reflexivity|].
        split; [exists post; reflexivity|].
        cbn [scan_object]. rewrite El, Er, Hm. reflexivity.
      * intros [= <-]. apply Ascii.eqb_eq in Er. subst c.
        split; [exists EmptyString; reflexivity|].
        split; [exists s; reflexivity|]. reflexivity.
    + destruct (scan_object inner s) as [m'|] eqn:Es; [|discriminate].
      intros [= <-].
      destruct (IH inner m' Es) as ((body & ->) & (post & ->) & Hm).
      split; [exists (String c body); reflexivity|].
      split; [exists post; reflexivity|].
      cbn [scan_object]. rewrite El, Er, Hm. reflexivity.
Qed.

Lemma re_search_object_sound (s m : string) :
  re_search_object s = Some m ->
  (exists body, m = "{" +:+ body +:+ "}")
  /\ (exists pre post, s = pre +:+ m +:+ post)
  /\ re_search_object m = Some m.
Proof.
  revert m. induction s as [|c s IH]; intros m; cbn [re_search_object];
    [discriminate|].
  assert (Hskip : re_search_object s = Some m ->
                  (exists body, m = "{" +:+ body +:+ "}")
                  /\ (exists pre post, String c s = pre +:+ m +:+ post)
                  /\ re_search_object m = Some m).
  { intros Hs. destruct (IH m Hs) as (Hb & (pre & post & ->) & Hm).
    split; [exact Hb|]. split; [|exact Hm].
    exists (String c pre), post. reflexivity. }
  destruct (Ascii.eqb c lbrace) eqn:El; [|exact Hskip].
  destruct (scan_object false s) as [m'|] eqn:Es; [|exact Hskip].
  intros [= <-]. apply Ascii.eqb_eq in El. subst c.
  destruct (scan_object_sound false s m' Es) as ((body & ->) & (post & ->) & Hm).
  split; [exists body; reflexivity|].
  split; [exists EmptyString, post; reflexivity|].
  cbn [re_search_object]. change (Ascii.eqb lbrace lbrace) with true.
  cbn iota. rewrite Hm. reflexivity.
Qed.

Lemma re_search_object_no_brace (s : string) :
  (forall pre post, s <> pre +:+ "{" +:+ post) -> re_search_object s = None.
Proof.
  induction s as [|c s IH]; intros Hno; cbn [re_search_object]; [reflexivity|].
  destruct (Ascii.eqb c lbrace) eqn:El.
  - apply Ascii.eqb_eq in El. subst c. exfalso.
    apply (Hno EmptyString s). reflexivity.
  - apply IH. intros pre post ->. apply (Hno (String c pre) post). reflexivity.
Qed.

(** X17.  What the regular expression extracts is a contiguous part of the
    response that begins with an opening brace and ends with a closing brace;
    a response without an opening brace is handed on unchanged. *)
Theorem X17_extracted_object (response_text : string) :
  (forall m,
     re_search_object response_text = Some m ->
     extract_json response_text = m
     /\ (exists body, m = "{" +:+ body +:+ "}")
     /\ exists pre post, response_text = pre +:+ m +:+ post)
  /\ ((forall pre post, response_text <> pre +:+ "{" +:+ post) ->
      extract_json response_text = response_text).
Proof.
  split.
  - intros m Hm. unfold extract_json. rewrite Hm.
    destruct (re_search_object_sound response_text m Hm) as (Hb & Hsub & _).
    auto.
  - intros Hno. unfold extract_json.
    now rewrite (re_search_object_no_brace response_text Hno).
Qed.

(** X18.  Extracting the JSON object a second time changes nothing: the
    extracted text is itself the leftmost match in it. *)
Theorem X18_extract_json_idempotent (response_text : string) :
  extract_json (extract_json response_text) = extract_json response_text.
Proof.
  unfold extract_json at 2 3.
  destruct (re_search_object response_text) as [m|] eqn:Em.
  - unfold extract_json.
    destruct (re_search_object_sound response_text m Em) as (_ & _ & ->).
    reflexivity.
  - unfold extract_json. now rewrite Em.
Qed.

(** ** The candidates of an ambiguous response *)

Section CandidateProperties.
Context `{Runtime}.

Lemma complete_insert infos c r :
  complete infos -> dom r = record_keys -> complete (<[c := r]> infos).
Proof.
  intros Hc Hr c' r'. destruct (decide (c = c')) as [->|Hne].
  - rewrite lookup_insert_eq. now intros [= <-].
  - rewrite lookup_insert_ne by exact Hne. apply Hc.
Qed.

Lemma for_each_candidates_complete dn di l :
  dom di = record_keys ->
  forall infos s infos' s',
    complete infos ->
    for_each (candidate_info_step dn di) l infos s = (inr infos', s') ->
    complete infos'
    /\ (forall c, is_Some (infos !! c) -> is_Some (infos' !! c))
    /\ (forall c, In c (map fst l) -> is_Some (infos' !! c)).
Proof.
  intros Hdi. induction l as [|[c p] l IH]; intros infos s infos' s' Hc.
  - cbn. intros [= <- <-]. split; [exact Hc|]. split; [auto|]. intros c [].
  - cbn [for_each]. unfold bind at 1.
    assert (Hstep : exists r,
               dom r = record_keys
               /\ exists s1, candidate_info_step dn di infos (c, p) s
                             = (inr (<[c := r]> infos), s1)).
    { destruct (String.eqb c dn) eqn:E.
      - exists di. split; [exact Hdi|]. exists s.
        now apply candidate_info_step_primary.
      - destruct (candidate_info_step_other dn di infos c p s E)
          as (r & _ & Hr & Hstep).
        exists r. split; [exact Hr|]. eexists. exact Hstep. }
    destruct Hstep as (r & Hr & s1 & ->). intros Hrun.
    destruct (IH _ _ _ _ (complete_insert infos c r Hc Hr) Hrun)
      as (Hc' & Hkeep & Hall).
    split; [exact Hc'|]. split.
    + intros c' Hsome. apply Hkeep.
      destruct (decide (c = c')) as [->|Hne];
        [rewrite lookup_insert_eq; eauto|now rewrite lookup_insert_ne].
    + intros c' [<-|Hin]; [|now apply Hall].
      apply Hkeep. rewrite lookup_insert_eq. eauto.
Qed.

(** X19.  Every element of [alternate_diseases] carries a record with the
    seven keys: the empty dict that [candidate_infos.get] falls back on and a
    partly filled record never reach the response. *)
Theorem X19_alternates_complete (pr : prediction_result) (s : io_state) :
  exists r s',
    analyze_scan_response pr s = (inr r, s')
    /\ forall a,
         In a (Response.alternate_diseases r) ->
         dom (Alternate.disease_info a) = record_keys.
Proof.
  destruct (ambiguous_branch pr) eqn:Hb.
  - destruct (analyze_scan_response_ambiguous pr s Hb)
      as (di & infos & s' & _ & Hdom & Hloop & Hrun).
    eexists _, s'. split; [exact Hrun|].
    cbn [Response.alternate_diseases].
    assert (Hempty : complete ∅) by (intros c r; now rewrite lookup_empty).
    destruct (for_each_candidates_complete _ di _ Hdom _ _ _ _ Hempty Hloop)
      as (Hc & _ & Hall).
    intros a Ha. unfold alternates_of in Ha. apply in_map_iff in Ha.
    destruct Ha as ([c p] & <- & Hin). cbn [Alternate.disease_info fst].
    destruct (Hall c) as (r & Hr); [apply in_map_iff; now exists (c, p)|].
    rewrite Hr. cbn. exact (Hc c r Hr).
  - destruct (analyze_scan_response_plain pr s Hb) as (di & _ & _ & Hrun).
    eexists _, _. split; [exact Hrun|]. intros a [].
Qed.

Lemma others_length dn l : (length (others dn l) <= length l)%nat.
Proof.
  unfold others. rewrite <- (length_map fst l). apply List.filter_length_le.
Qed.

(** X20.  One analysis sends between one and four requests to the generator;
    a response that is not ambiguous costs exactly one request, for the
    primary disease, and its [disease_info] is the record that request
    gave; when the primary is the top-ranked entry, at most three are sent. *)
Theorem X20_requests_per_analysis (pr : prediction_result) (s : io_state) :
  exists di r s',
    get_disease_info (ModelService.disease pr) s
    = (inr di, after_request (ModelService.disease pr) s)
    /\ analyze_scan_response pr s = (inr r, s')
    /\ (length (prompts s) + 1 <= length (prompts s') <= length (prompts s) + 4)%nat
    /\ (Response.is_low_confidence r = false ->
        Response.disease_info r = di
        /\ prompts s'
           = (prompts s ++ [request_for (ModelService.disease pr)])%list)
    /\ (top_is_primary pr ->
        (length (prompts s') <= length (prompts s) + 3)%nat).
Proof.
  destruct (ambiguous_branch pr) eqn:Hb.
  - destruct (analyze_scan_response_ambiguous pr s Hb)
      as (di & infos & s' & Hdi & _ & Hloop & Hrun).
    destruct (for_each_candidates (ModelService.disease pr) di
                (firstn 3 (ranked pr)) ∅
                (after_request (ModelService.disease pr) s))
      as (infos' & s'' & Hloop' & Hp & _).
    rewrite Hloop in Hloop'. injection Hloop' as <- <-.
    eexists di, _, s'. split; [exact Hdi|]. split; [exact Hrun|].
    cbn [Response.is_low_confidence Response.disease_info].
    rewrite Hp. cbn [after_request prompts].
    rewrite !length_app, length_map. cbn [length].
    pose proof (others_length (ModelService.disease pr) (firstn 3 (ranked pr)))
      as Ho.
    pose proof (firstn_le_length 3 (ranked pr)) as Hf.
    split; [lia|]. split; [discriminate|].
    intros Htop. destruct (top_is_primary_ranked pr Htop) as (rest & Hr).
    rewrite Hr. cbn [firstn]. unfold others. cbn [map fst List.filter].
    rewrite String.eqb_refl. cbn [negb].
    pose proof (List.filter_length_le
                  (fun c => negb (String.eqb c (ModelService.disease pr)))
                  (map fst (firstn 2 rest))) as Hl.
    rewrite length_map in Hl.
    pose proof (firstn_le_length 2 rest). lia.
  - destruct (analyze_scan_response_plain pr s Hb) as (di & Hdi & _ & Hrun).
    eexists di, _, _. split; [exact Hdi|]. split; [exact Hrun|].
    cbn [Response.is_low_confidence Response.disease_info after_request prompts].
    rewrite length_app. cbn [length]. split; [lia|].
    split; [auto|]. intros _. lia.
Qed.

End CandidateProperties.

(** X21.  With probabilities that are not negative, [top_prediction] is at
    least every probability of the distribution, [second_prediction] is at
    most [top_prediction], and so the margin the decision tests is never
    negative. *)
Theorem X21_margin_not_negative (pr : prediction_result) :
  (forall label p,
     In (label, p) (ModelService.all_predictions pr) -> (0 <= p)%Q) ->
  (forall label p,
     In (label, p) (ModelService.all_predictions pr) ->
     (p <= top_prediction (ranked pr))%Q)
  /\ (0 <= second_prediction (ranked pr) <= top_prediction (ranked pr))%Q
  /\ (0 <= top_prediction (ranked pr) - second_prediction (ranked pr))%Q.
Proof.
  intros Hpos.
  assert (Hperm : Permutation (ranked pr) (ModelService.all_predictions pr))
    by apply sorted_desc_perm.
  assert (Hsort : StronglySorted desc (ranked pr)) by apply sorted_desc_sorted.
  assert (Hpos' : forall label p, In (label, p) (ranked pr) -> (0 <= p)%Q).
  { intros label p Hin. apply (Hpos label).
    eapply Permutation_in; eassumption. }
  assert (Hin' : forall label p,
             In (label, p) (ModelService.all_predictions pr) ->
             In (label, p) (ranked pr)).
  { intros label p Hin. eapply Permutation_in; [symmetry|]; eassumption. }
  destruct (ranked pr) as [|[l1 p1] rest] eqn:Er.
  - cbn. split; [intros label p Hin; destruct (Hin' _ _ Hin)|]. lra.
  - inversion Hsort as [|x l Hs Hx]; subst.
    assert (Hp1 : (0 <= p1)%Q) by (apply (Hpos' l1); now left).
    assert (Htop : forall label p, In (label, p) ((l1, p1) :: rest) -> (p <= p1)%Q).
    { intros label p [[= <- <-]|Hin]; [apply Qle_refl|].
      rewrite Forall_forall in Hx.
      apply (Hx (label, p)). now apply list_elem_of_In. }
    split; [intros label p Hin; apply (Htop label), Hin', Hin|].
    destruct rest as [|[l2 p2] rest]; cbn [top_prediction second_prediction].
    + lra.
    + assert (Hp2 : (0 <= p2)%Q) by (apply (Hpos' l2); right; now left).
      assert (H21 : (p2 <= p1)%Q) by (apply (Htop l2); right; now left).
      lra.
Qed.

(** ** The properties above on concrete requests *)

Lemma X5_model_not_loaded_witness :
  fst (@analyze_scan Demo.runtime Demo.upload (@predict Demo.runtime Demo.unloaded)
         (Demo.start []))
  = inl (HTTPException 500
           "Error analyzing image: Model not loaded. Call load_model() first.").
Proof.
  destruct (@X5_model_not_loaded Demo.runtime Demo.unloaded Demo.upload "image/x-portable-pixmap" tt
              (Demo.start []) (Demo.start []) eq_refl eq_refl eq_refl
              (demo_open_rgb _ _)) as (_ & ->).
  reflexivity.
Defined.

Lemma X6_not_an_image_witness :
  @analyze_scan Demo.runtime Demo.pdf_upload (fun _ => ret Demo.close_call)
    (Demo.start [])
  = (inl (HTTPException 400 "File must be an image"), Demo.start []).
Proof.
  exact (@X6_not_an_image Demo.runtime Demo.pdf_upload (fun _ => ret Demo.close_call)
           (Demo.start []) eq_refl).
Defined.

Lemma X8_image_base64_required_witness :
  @analyze_scan_base64 Demo.runtime ∅ (fun _ => ret Demo.close_call)
    (Demo.start [])
  = (inl (HTTPException 400 "image_base64 is required"), Demo.start []).
Proof.
  exact (@X8_image_base64_required Demo.runtime ∅ (fun _ => ret Demo.close_call)
           (Demo.start []) (or_introl (lookup_empty _))).
Defined.

Lemma X7_only_http_errors_witness :
  exists status_code detail,
    HTTPException 400 "image_base64 is required"
    = HTTPException status_code detail
    /\ fst (@analyze_scan_base64 Demo.runtime ∅ (fun _ => ret Demo.close_call)
              (Demo.start []))
       = inl (HTTPException status_code detail).
Proof.
  pose proof (@X8_image_base64_required_witness) as Hrun.
  destruct (@X7_only_http_errors Demo.runtime Demo.upload ∅
              (fun _ => ret Demo.close_call) (Demo.start []) (Demo.start [])
              _ (or_intror Hrun)) as (c & d & Heq).
  exists c, d. split; [exact Heq|]. rewrite Hrun. cbn. now rewrite Heq.
Defined.

Lemma X10_same_answer_witness :
  @analyze_scan_base64 Demo.runtime Demo.data_url_request
    (@predict Demo.runtime Demo.loaded) (Demo.start [])
  = @analyze_scan Demo.runtime Demo.upload (@predict Demo.runtime Demo.loaded)
      (Demo.start []).
Proof.
  apply (@X10_same_answer Demo.runtime Demo.upload Demo.data_url_request
           (@predict Demo.runtime Demo.loaded) "image/x-portable-pixmap"
           "data:image/x-portable-pixmap;base64,UDYKMSAxCjI1NQr/AAA="
           tt (Demo.start []) (Demo.start [])).
  - reflexivity.
  - reflexivity.
  - apply lookup_singleton_eq.
  - discriminate.
  - vm_compute. reflexivity.
  - apply demo_open_rgb.
Defined.

Lemma X11_analysis_of_six_classes_witness :
  exists r,
    fst (@analyze_scan Demo.runtime Demo.upload (@predict Demo.runtime Demo.loaded)
           (Demo.start []))
    = inr r
    /\ map snd (Response.all_predictions r) = [0.85; 0.05; 0.10; 0; 0; 0]%Q
    /\ Response.is_low_confidence r
       = spec_is_ambiguous 0.70 0.20 (Response.all_predictions r).
Proof.
  destruct (@X11_analysis_of_six_classes Demo.runtime Demo.loaded Demo.upload
              "image/x-portable-pixmap" tt [0.85; 0.05; 0.10; 0; 0; 0]%Q
              (Demo.start []) (Demo.start [])
              eq_refl eq_refl eq_refl eq_refl eq_refl (demo_open_rgb _ _)
              eq_refl eq_refl)
    as (r & s' & Hrun & Hprobs & _ & Hlow).
  exists r. split; [now rewrite Hrun|]. split; [exact Hprobs|exact Hlow].
Defined.

Lemma demo_array :
  Demo.loads (cleaned "[]") = inr (JList []).
Proof. vm_compute. reflexivity. Qed.

Lemma demo_object :
  Demo.loads (cleaned ("```json" +:+ Demo.sample_payload +:+ "```"))
  = inr (JDict (list_to_map [("severity", JStr "mild"); ("source", JStr "wiki")])).
Proof. vm_compute. reflexivity. Qed.

Lemma X13_not_an_object_witness :
  fst (@get_disease_info Demo.runtime "SCC" (Demo.start [inr "[]"]))
  = inr (fallback_info "SCC").
Proof.
  destruct (@X13_not_an_object Demo.runtime "SCC" (Demo.start [inr "[]"]) "[]" []
              (JList []) (demo_answer "SCC" "[]") demo_array I) as (-> & _).
  reflexivity.
Defined.

Lemma X14_fields_of_an_object_witness :
  exists r,
    fst (@get_disease_info Demo.runtime "SCC"
           (Demo.start [inr ("```json" +:+ Demo.sample_payload +:+ "```")]))
    = inr r
    /\ r !! "severity" = Some (JStr "mild")
    /\ r !! "name" = Some (JStr "Squamous Cell Carcinoma").
Proof.
  destruct (@X14_fields_of_an_object Demo.runtime "SCC"
              (Demo.start [inr ("```json" +:+ Demo.sample_payload +:+ "```")])
              _ [] _ (demo_answer "SCC" _) demo_object)
    as (r & Hrun & Hkeep & Hname & _).
  exists r. split; [now rewrite Hrun|]. split.
  - apply Hkeep.
    + unfold record_keys. rewrite elem_of_list_to_set.
      do 5 apply list_elem_of_further. apply list_elem_of_here.
    + vm_compute. reflexivity.
  - rewrite Hname; [reflexivity|]. vm_compute. reflexivity.
Defined.

Lemma X17_extracted_object_witness :
  extract_json "Here it is: {a {b} c} thanks" = "{a {b} c}"
  /\ extract_json "ok" = "ok".
Proof.
  destruct (X17_extracted_object "Here it is: {a {b} c} thanks") as (Hfound & _).
  destruct (X17_extracted_object "ok") as (_ & Hnone).
  split.
  - exact (proj1 (Hfound "{a {b} c}" eq_refl)).
  - apply Hnone. intros pre post Heq.
    destruct pre as [|a [|b [|c pre]]]; inversion Heq.
Defined.

Lemma X19_alternates_complete_witness :
  exists r,
    fst (@analyze_scan_response Demo.runtime Demo.close_call (Demo.start []))
    = inr r
    /\ length (Response.alternate_diseases r) = 3%nat
    /\ forall a,
         In a (Response.alternate_diseases r) ->
         dom (Alternate.disease_info a) = record_keys.
Proof.
  destruct (@X19_alternates_complete Demo.runtime Demo.close_call (Demo.start []))
    as (r & s' & Hrun & Hall).
  destruct (@analyze_scan_response_ambiguous Demo.runtime Demo.close_call
              (Demo.start []) eq_refl) as (di & infos & s'' & _ & _ & _ & Hrun').
  rewrite Hrun in Hrun'. injection Hrun' as -> ->.
  eexists. split; [now rewrite Hrun|]. split; [|exact Hall].
  reflexivity.
Defined.

Lemma X20_requests_per_analysis_witness :
  exists r s',
    @analyze_scan_response Demo.runtime Demo.close_call (Demo.start [])
    = (inr r, s')
    /\ (length (prompts s') <= 3)%nat.
Proof.
  destruct (@X20_requests_per_analysis Demo.runtime Demo.close_call (Demo.start []))
    as (di & r & s' & _ & Hrun & _ & _ & Htop).
  exists r, s'. split; [exact Hrun|].
  exact (Htop close_call_top_is_primary).
Defined.

Lemma X21_margin_not_negative_witness :
  (0 <= top_prediction (ranked Demo.close_call)
        - second_prediction (ranked Demo.close_call))%Q.
Proof.
  apply (X21_margin_not_negative Demo.close_call).
  intros label p Hin. cbn in Hin.
  repeat (destruct Hin as [[= <- <-]|Hin]; [vm_compute; discriminate|]).
  destruct Hin.
Defined.

Lemma X22_error_translation_witness :
  @analyze_scan Demo.runtime Demo.upload
    (fun _ => raise (HTTPException 503 "Model service not available"))
    (Demo.start [])
  = (inl (HTTPException 503 "Model service not available"), Demo.start []).
Proof.
  exact (proj2 (@X22_error_translation Demo.runtime Demo.upload
                  (fun _ => raise (HTTPException 503 "Model service not available"))
                  "image/x-portable-pixmap" (HTTPException 503 "Model service not available")
                  (Demo.start []) eq_refl eq_refl)
           tt (Demo.start []) (Demo.start []) (demo_open_rgb _ _) eq_refl).
Defined.
